(** * Verification of [plugins/adaptiveintroskip/skip_helper.py]

    A shallow embedding of the Emby skip helper: the two keyword filters
    ([include_keyword], [exclude_keyword]), the timestamp formatter
    ([format_time]) and the request methods of [EmbySkipHelper].

    Conventions of the embedding.
    - A Python [str] is a [string] holding its UTF-8 bytes.  Substring
      search, [startswith] and splitting on an ASCII separator give the same
      answers on the bytes as on the code points.
    - A Python object met by the code (a parsed JSON document, an argument)
      is a [Py.value].
    - A Python exception that [except Exception] catches is a [Py.exn];
      an expression that may raise has type [Py.result].
    - Requests to the media server and calls of the logger are effects in
      the monad [Eff.M], which threads the state of the server and the
      trace of what was sent and logged. *)

From Stdlib Require Import ZArith List String Ascii Bool Lia.
From Stdlib Require Import SpecFloat.
Import ListNotations.

Local Open Scope string_scope.
Local Open Scope Z_scope.

(* ================================================================= *)
(** * Builtin operations of [str] *)

Module PyStr.

(** [s.split(sep)] for a separator of one character: the pieces between
    the occurrences of [sep]; always at least one piece. *)
Fixpoint split (sep : ascii) (s : string) : list string :=
  match s with
  | EmptyString => [EmptyString]
  | String c rest =>
      if Ascii.eqb c sep then EmptyString :: split sep rest
      else match split sep rest with
           | piece :: pieces => String c piece :: pieces
           | [] => [String c EmptyString]
           end
  end.

(** [s.startswith(p)]. *)
Fixpoint startswith (s p : string) {struct p} : bool :=
  match p with
  | EmptyString => true
  | String c p' =>
      match s with
      | EmptyString => false
      | String d s' => Ascii.eqb c d && startswith s' p'
      end
  end.

(** [s.endswith(p)]: some tail of [s] is [p]. *)
Fixpoint endswith (s p : string) : bool :=
  String.eqb s p
  || match s with
     | EmptyString => false
     | String _ s' => endswith s' p
     end.

(** [needle in hay]: [needle] occurs in [hay] at some offset. *)
Fixpoint contains (hay needle : string) : bool :=
  startswith hay needle
  || match hay with
     | EmptyString => false
     | String _ hay' => contains hay' needle
     end.

(** [bool(s)]: a string is truthy when it is not empty. *)
Definition truthy (s : string) : bool :=
  match s with EmptyString => false | String _ _ => true end.

(** [sep.join(pieces)]. *)
Definition join (sep : string) (pieces : list string) : string :=
  String.concat sep pieces.

(** [s[:n]]. *)
Fixpoint take (n : nat) (s : string) : string :=
  match n, s with
  | S n', String c s' => String c (take n' s')
  | _, _ => EmptyString
  end.

Fixpoint zeros (n : nat) : string :=
  match n with O => EmptyString | S n' => String "0" (zeros n') end.

(** [s.zfill(width)]: zeros are put on the left, after a leading sign. *)
Definition zfill (width : nat) (s : string) : string :=
  let pad := zeros (width - String.length s) in
  match s with
  | String c s' =>
      if Ascii.eqb c "-" || Ascii.eqb c "+" then String c (pad ++ s')
      else pad ++ s
  | EmptyString => pad
  end.

(** The decimal digit of [d], for [0 <= d < 10]. *)
Definition digit (d : Z) : ascii :=
  ascii_of_nat (48 + Z.to_nat d).

(** The decimal digits of a non-negative [n], most significant first,
    put in front of [acc]. *)
Fixpoint digits_onto (fuel : nat) (n : Z) (acc : string) : string :=
  let acc' := String (digit (n mod 10)) acc in
  match fuel with
  | O => acc'
  | S fuel' => if n <? 10 then acc' else digits_onto fuel' (n / 10) acc'
  end.

Definition digits (n : Z) : string :=
  digits_onto (Z.to_nat (Z.log2 n)) n EmptyString.

(** [str(n)] for an [int]. *)
Definition of_int (n : Z) : string :=
  if n <? 0 then String "-" (digits (- n)) else digits n.

(** The goal of formatting with [%0wd]: [n] on at least [w] digits. *)
Definition of_int_width (w : nat) (n : Z) : string :=
  zfill w (of_int n).

End PyStr.

(* ================================================================= *)
(** * Python objects and the builtin operations the helper applies *)

Module Py.

(** The exceptions the helper can meet; all derive from [Exception]. *)
Inductive exn : Type :=
| KeyError | IndexError | TypeError | AttributeError
| ValueError | OverflowError | ZeroDivisionError
| RequestException      (* raised by [requests.get] *)
| JSONDecodeError.      (* raised by [response.json()] *)

(** The outcome of an expression: an exception or a value. *)
Definition result (A : Type) : Type := (exn + A)%type.
Definition ok {A : Type} (a : A) : result A := inr a.
Definition raise {A : Type} (e : exn) : result A := inl e.

Definition bind {A B : Type} (r : result A) (k : A -> result B) : result B :=
  match r with inl e => inl e | inr a => k a end.

(** Objects: what [json] parsing yields and what a caller passes.
    A [dict] keeps its items in insertion order; its keys are strings. *)
#[warnings="-register-all"]
Inductive value : Type :=
| PyNone
| PyBool (b : bool)
| PyInt (n : Z)
| PyFloat (f : spec_float)
| PyStr (s : string)
| PyList (items : list value)
| PyDict (items : list (string * value)).

(** [d.get(key)] on the items of a dict. *)
Fixpoint lookup {A : Type} (key : string) (items : list (string * A)) : option A :=
  match items with
  | [] => None
  | (k, v) :: rest => if String.eqb key k then Some v else lookup key rest
  end.

(* --------------------------------------------------------------- *)
(** ** Numbers: [bool] and [int] are integers, [float] is binary64 *)

Definition prec : Z := 53.
Definition emax : Z := 1024.

Inductive number : Type :=
| NInt (n : Z)
| NFloat (f : spec_float).

Definition as_number (v : value) : option number :=
  match v with
  | PyBool b => Some (NInt (if b then 1 else 0))
  | PyInt n => Some (NInt n)
  | PyFloat f => Some (NFloat f)
  | _ => None
  end.

(** An integer as the float with that exact value (the mantissa is not
    normalised; the operations of [SpecFloat] round it). *)
Definition exact_float (n : Z) : spec_float :=
  match n with
  | Z0 => S754_zero false
  | Zpos p => S754_finite false p 0
  | Zneg p => S754_finite true p 0
  end.

(** [float(n)]: rounded to nearest even, [OverflowError] past the range. *)
Definition float_of_int (n : Z) : result spec_float :=
  match binary_normalize prec emax n 0 false with
  | S754_infinity _ => raise OverflowError
  | f => ok f
  end.

(** Order of an integer and a float, by their exact values;
    [None] for NaN. *)
Definition compare_int_float (n : Z) (f : spec_float) : option comparison :=
  match f with
  | S754_nan => None
  | S754_infinity s => Some (if s then Gt else Lt)
  | S754_zero _ => Some (n ?= 0)
  | S754_finite s m e =>
      let v := if s then Zneg m else Zpos m in
      if 0 <=? e then Some (n ?= v * 2 ^ e)
      else Some (n * 2 ^ (- e) ?= v)
  end.

Definition compare_number (x y : number) : option comparison :=
  match x, y with
  | NInt a, NInt b => Some (a ?= b)
  | NInt a, NFloat g => compare_int_float a g
  | NFloat f, NInt b => option_map CompOpp (compare_int_float b f)
  | NFloat f, NFloat g => SFcompare f g
  end.

Definition number_eqb (x y : number) : bool :=
  match compare_number x y with Some Eq => true | _ => false end.

Definition number_geb (x y : number) : bool :=
  match compare_number x y with Some (Eq | Gt) => true | _ => false end.

Definition is_zero (x : number) : bool :=
  match x with
  | NInt n => n =? 0
  | NFloat (S754_zero _) => true
  | NFloat _ => false
  end.

(** [x + y] on numbers. *)
Definition number_add (x y : number) : result value :=
  match x, y with
  | NInt a, NInt b => ok (PyInt (a + b))
  | NInt a, NFloat g =>
      bind (float_of_int a) (fun f => ok (PyFloat (SFadd prec emax f g)))
  | NFloat f, NInt b =>
      bind (float_of_int b) (fun g => ok (PyFloat (SFadd prec emax f g)))
  | NFloat f, NFloat g => ok (PyFloat (SFadd prec emax f g))
  end.

(** [x / y] on numbers.  The quotient of two integers is the float
    nearest to the exact quotient, [OverflowError] when there is none;
    with a float operand the integer is converted first. *)
Definition number_truediv (x y : number) : result value :=
  if is_zero y then raise ZeroDivisionError
  else
    match x, y with
    | NInt a, NInt b =>
        match SFdiv prec emax (exact_float a) (exact_float b) with
        | S754_infinity _ => raise OverflowError
        | q => ok (PyFloat q)
        end
    | NInt a, NFloat g =>
        bind (float_of_int a) (fun f => ok (PyFloat (SFdiv prec emax f g)))
    | NFloat f, NInt b =>
        bind (float_of_int b) (fun g => ok (PyFloat (SFdiv prec emax f g)))
    | NFloat f, NFloat g => ok (PyFloat (SFdiv prec emax f g))
    end.

(* --------------------------------------------------------------- *)
(** ** Operators on objects *)

(** [a == b].  Numbers compare by value across [bool], [int] and
    [float]; lists item by item; dicts as maps, whatever the order. *)
Fixpoint eqb (a b : value) {struct a} : bool :=
  match a, b with
  | PyNone, PyNone => true
  | PyStr s, PyStr t => String.eqb s t
  | PyList l, PyList m =>
      (fix items_eqb (l m : list value) {struct l} : bool :=
         match l, m with
         | [], [] => true
         | x :: l', y :: m' => eqb x y && items_eqb l' m'
         | _, _ => false
         end) l m
  | PyDict d, PyDict e =>
      Nat.eqb (List.length d) (List.length e)
      && (fix all_in (d : list (string * value)) {struct d} : bool :=
            match d with
            | [] => true
            | (k, v) :: d' =>
                match lookup k e with
                | Some w => eqb v w
                | None => false
                end && all_in d'
            end) d
  | _, _ =>
      match as_number a, as_number b with
      | Some x, Some y => number_eqb x y
      | _, _ => false
      end
  end.

(** [a >= b].  Defined between two numbers, two strings and two lists;
    [TypeError] otherwise. *)
Fixpoint geb (a b : value) {struct a} : result bool :=
  match a, b with
  | PyStr s, PyStr t => ok (String.leb t s)
  | PyList l, PyList m =>
      (fix items_geb (l m : list value) {struct l} : result bool :=
         match l, m with
         | [], [] => ok true
         | [], _ :: _ => ok false
         | _ :: _, [] => ok true
         | x :: l', y :: m' => if eqb x y then items_geb l' m' else geb x y
         end) l m
  | _, _ =>
      match as_number a, as_number b with
      | Some x, Some y => ok (number_geb x y)
      | _, _ => raise TypeError
      end
  end.

(** [a + b]. *)
Definition add (a b : value) : result value :=
  match a, b with
  | PyStr s, PyStr t => ok (PyStr (s ++ t))
  | PyList l, PyList m => ok (PyList (l ++ m))
  | _, _ =>
      match as_number a, as_number b with
      | Some x, Some y => number_add x y
      | _, _ => raise TypeError
      end
  end.

(** [a / b]. *)
Definition truediv (a b : value) : result value :=
  match as_number a, as_number b with
  | Some x, Some y => number_truediv x y
  | _, _ => raise TypeError
  end.

(** [bool(v)], the test of an [if]. *)
Definition truthy (v : value) : bool :=
  match v with
  | PyNone => false
  | PyBool b => b
  | PyInt n => negb (n =? 0)
  | PyFloat f => negb (is_zero (NFloat f))
  | PyStr s => PyStr.truthy s
  | PyList l => match l with [] => false | _ :: _ => true end
  | PyDict d => match d with [] => false | _ :: _ => true end
  end.

(** [seq[i]] on a sequence of length [len], a negative [i] counting from
    the end. *)
Definition index_in (len : nat) (i : Z) : option nat :=
  let n := Z.of_nat len in
  if (0 <=? i) && (i <? n) then Some (Z.to_nat i)
  else if (- n <=? i) && (i <? 0) then Some (Z.to_nat (n + i))
  else None.

(** [l[i]] on a list: [IndexError] outside it. *)
Definition item {A : Type} (l : list A) (i : Z) : result A :=
  match index_in (List.length l) i with
  | Some n =>
      match nth_error l n with
      | Some x => ok x
      | None => raise IndexError
      end
  | None => raise IndexError
  end.

Fixpoint chars (s : string) : list value :=
  match s with
  | EmptyString => []
  | String c s' => PyStr (String c EmptyString) :: chars s'
  end.

(** [v[key]]. *)
Definition getitem (v key : value) : result value :=
  match v with
  | PyDict d =>
      match key with
      | PyStr k =>
          match lookup k d with Some x => ok x | None => raise KeyError end
      | PyList _ | PyDict _ => raise TypeError      (* unhashable key *)
      | _ => raise KeyError
      end
  | PyList l =>
      match key with
      | PyInt i => item l i
      | PyBool b => item l (if b then 1 else 0)
      | _ => raise TypeError
      end
  | PyStr s =>
      match key with
      | PyInt i => item (chars s) i
      | PyBool b => item (chars s) (if b then 1 else 0)
      | _ => raise TypeError
      end
  | _ => raise TypeError                            (* not subscriptable *)
  end.

(** The items a [for] loop over [v] visits. *)
Definition iterate (v : value) : result (list value) :=
  match v with
  | PyList l => ok l
  | PyDict d => ok (map (fun kv => PyStr (fst kv)) d)
  | PyStr s => ok (chars s)
  | _ => raise TypeError
  end.

(** [v.startswith(p)]: only a [str] has the method. *)
Definition startswith (v : value) (p : string) : result bool :=
  match v with
  | PyStr s => ok (PyStr.startswith s p)
  | _ => raise AttributeError
  end.

(* --------------------------------------------------------------- *)
(** ** Rendering: [str(v)], as an f-string interpolates it *)

(** CPython renders a float by its shortest round-trip decimal and quotes
    a string inside a container by [repr]; both are taken as given. *)
Class Repr : Type := {
  float_repr : spec_float -> string;
  str_repr : string -> string
}.

Section Rendering.
Context {R : Repr}.

Fixpoint repr (v : value) : string :=
  match v with
  | PyNone => "None"
  | PyBool b => if b then "True" else "False"
  | PyInt n => PyStr.of_int n
  | PyFloat f => float_repr f
  | PyStr s => str_repr s
  | PyList l => "[" ++ PyStr.join ", " (map repr l) ++ "]"
  | PyDict d =>
      "{" ++ PyStr.join ", "
               (map (fun kv => str_repr (fst kv) ++ ": " ++ repr (snd kv)) d)
          ++ "}"
  end.

Definition str (v : value) : string :=
  match v with
  | PyStr s => s
  | _ => repr v
  end.
End Rendering.

End Py.

(* ================================================================= *)
(** * The part of [datetime] that [format_time] uses *)

Module Datetime.
Import Py.

(** A naive datetime, by the microseconds between 1970-01-01T00:00:00
    and it. *)
Record datetime : Type := { since_epoch : Z }.

(** The seconds from the epoch of 0001-01-01T00:00:00 and of
    9999-12-31T23:59:59, the first and the last second of a [datetime]. *)
Definition min_second : Z := -62135596800.
Definition max_second : Z := 253402300799.

(** [modf] of a finite float, then the fraction times [1e6] rounded to
    the nearest integer, ties to even: the whole seconds and the
    microseconds CPython reads from a float timestamp. *)
Definition whole_part (s : bool) (m : positive) (e : Z) : Z :=
  let q := if 0 <=? e then Zpos m * 2 ^ e else Zpos m / 2 ^ (- e) in
  if s then - q else q.

Definition fraction (s : bool) (m : positive) (e : Z) : spec_float :=
  if 0 <=? e then S754_zero s
  else match Zpos m mod 2 ^ (- e) with
       | Zpos r => S754_finite s r e
       | _ => S754_zero s
       end.

Definition round_half_even (f : spec_float) : Z :=
  match f with
  | S754_finite s m e =>
      let q :=
        if 0 <=? e then Zpos m * 2 ^ e
        else
          let d := 2 ^ (- e) in
          let q := Zpos m / d in
          let r := Zpos m mod d in
          match 2 * r ?= d with
          | Lt => q
          | Gt => q + 1
          | Eq => if Z.even q then q else q + 1
          end in
      if s then - q else q
  | _ => 0
  end.

Definition million : spec_float := S754_finite false 1000000 0.

(** Seconds and microseconds of a timestamp, with
    [0 <= microseconds < 1000000]. *)
Definition timeval (timestamp : value) : result (Z * Z) :=
  match timestamp with
  | PyInt n => ok (n, 0)
  | PyBool b => ok (if b then 1 else 0, 0)
  | PyFloat S754_nan => raise ValueError
  | PyFloat (S754_infinity _) => raise OverflowError
  | PyFloat (S754_zero _) => ok (0, 0)
  | PyFloat (S754_finite s m e) =>
      let sec := whole_part s m e in
      let us := round_half_even (SFmul prec emax (fraction s m e) million) in
      if 1000000 <=? us then ok (sec + 1, us - 1000000)
      else if us <? 0 then ok (sec - 1, us + 1000000)
      else ok (sec, us)
  | _ => raise TypeError
  end.

(** [datetime.utcfromtimestamp(timestamp)].  Past the range of the
    platform's [time_t] the error is [OverflowError]; a second outside
    the years 1 to 9999 is reported here as [ValueError]. *)
Definition utcfromtimestamp (timestamp : value) : result datetime :=
  bind (timeval timestamp) (fun '(sec, us) =>
    if (sec <? - 2 ^ 63) || (2 ^ 63 <=? sec) then raise OverflowError
    else if (sec <? min_second) || (max_second <? sec) then raise ValueError
    else ok {| since_epoch := sec * 1000000 + us |}).

(** A [timedelta], normalised: [0 <= seconds < 86400] and
    [0 <= microseconds < 1000000]. *)
Record timedelta : Type := { days : Z; seconds : Z; microseconds : Z }.

Definition day_us : Z := 86400 * 1000000.

(** [a - b] on two datetimes. *)
Definition sub (a b : datetime) : timedelta :=
  let us := since_epoch a - since_epoch b in
  {| days := us / day_us;
     seconds := (us mod day_us) / 1000000;
     microseconds := (us mod day_us) mod 1000000 |}.

(** [str(delta)]: [H:MM:SS], after the days when there are any, before
    the six digits of the microseconds when there are any. *)
Definition str (delta : timedelta) : string :=
  let mm := seconds delta / 60 in
  let ss := seconds delta mod 60 in
  let hh := mm / 60 in
  let mm := mm mod 60 in
  let s := PyStr.of_int hh ++ ":" ++ PyStr.of_int_width 2 mm
                           ++ ":" ++ PyStr.of_int_width 2 ss in
  let s :=
    if days delta =? 0 then s
    else PyStr.of_int (days delta)
           ++ " day" ++ (if Z.abs (days delta) =? 1 then "" else "s")
           ++ ", " ++ s in
  if microseconds delta =? 0 then s
  else s ++ "." ++ PyStr.of_int_width 6 (microseconds delta).

End Datetime.

(* ================================================================= *)
(** * Effects: requests to the media server and the logger *)

Module Eff.
Import Py.

(** The arguments of one [requests.get(url, headers=..., params=...)]. *)
Record request : Type := {
  url : string;
  headers : list (string * string);
  params : list (string * string)
}.

(** What the helper reads of a response: the outcome of [response.json()]. *)
Record response : Type := { json : result value }.

(** The calls of the logger, with the objects put in the message. *)
Inductive log_record : Type :=
| debug_item (episode item_id : value)   (* the episode number and its id *)
| error_exception (e : exn)              (* the caught exception *)
| error_no_duration.                     (* no media source to read *)

Section Server.
(** The media server: any state, and any answer to a request, which
    is an exception raised by [requests.get] or a response. *)
Context {World : Type}.
Variable serve : request -> World -> result response * World.

(** The state a method runs in; [sent] and [logged] grow at the end. *)
Record state : Type := {
  world : World;
  sent : list request;
  logged : list log_record
}.

Definition M (A : Type) : Type := state -> result A * state.

Definition ret {A : Type} (a : A) : M A := fun st => (ok a, st).

Definition bind {A B : Type} (c : M A) (k : A -> M B) : M B :=
  fun st =>
    match c st with
    | (inl e, st') => (inl e, st')
    | (inr a, st') => k a st'
    end.

(** A pure expression that may raise. *)
Definition lift {A : Type} (r : result A) : M A := fun st => (r, st).

(** [try: body / except Exception as e: handler(e)]. *)
Definition try_except {A : Type} (body : M A) (handler : exn -> M A) : M A :=
  fun st =>
    match body st with
    | (inl e, st') => handler e st'
    | (inr a, st') => (inr a, st')
    end.

Definition requests_get (r : request) : M response :=
  fun st =>
    let '(answer, w) := serve r (world st) in
    (answer, {| world := w; sent := sent st ++ [r]; logged := logged st |}).

Definition log (l : log_record) : M unit :=
  fun st =>
    (ok tt, {| world := world st; sent := sent st;
               logged := logged st ++ [l] |}).
End Server.

Arguments state : clear implicits.
Arguments M : clear implicits.

End Eff.

(* ================================================================= *)
(** * Keyword filters *)

(** The dictionary both filters return: [{'ret': ret, 'msg': msg}]. *)
Record verdict : Type := { ret : bool; msg : string }.

(** The [for] loop of [include_keyword] with its [break]: [(flag, msg)]
    after the loop. *)
Fixpoint include_loop (path : string) (keyword_list : list string)
    (flag : bool) (msg : string) : bool * string :=
  match keyword_list with
  | [] => (flag, msg)
  | keyword :: rest =>
      if PyStr.contains path keyword then (true, keyword)
      else include_loop path rest flag msg
  end.

Definition include_keyword (path keywords : string) : verdict :=
  let keyword_list := PyStr.split "," keywords in
  let '(flag, msg) := include_loop path keyword_list false EmptyString in
  if flag then {| ret := true; msg := msg |}
  else {| ret := false; msg := EmptyString |}.

(** The [for] loop of [exclude_keyword], which returns from inside. *)
Fixpoint exclude_loop (path : string) (keyword_list : list string) : verdict :=
  match keyword_list with
  | [] => {| ret := true; msg := EmptyString |}
  | keyword :: rest =>
      if PyStr.contains path keyword then {| ret := false; msg := keyword |}
      else exclude_loop path rest
  end.

Definition exclude_keyword (path keywords : string) : verdict :=
  let keyword_list :=
    if PyStr.truthy keywords then PyStr.split "," keywords else [] in
  exclude_loop path keyword_list.

(* ================================================================= *)
(** * The helper class *)

Module EmbySkipHelper.
Import Py.

(** [format_time(seconds)], a static method. *)
Definition format_time (seconds : value) : result string :=
  bind (Datetime.utcfromtimestamp seconds) (fun t =>
  bind (Datetime.utcfromtimestamp (PyInt 0)) (fun t0 =>
  let delta := Datetime.sub t t0 in
  bind (item (PyStr.split "." (Datetime.str delta)) 0) (fun whole =>
  let formatted_time :=
    whole ++ "."
    ++ PyStr.take 3
         (PyStr.zfill 6 (PyStr.of_int (Datetime.microseconds delta))) in
  ok formatted_time))).

(** The fields of an instance.  [base_url] and [api_key] are [None] or
    a string; [headers] is the dict sent with every request. *)
Record helper : Type := {
  base_url : option string;
  api_key : option string;
  headers : list (string * string)
}.

(** [str(x)] for a field that is [None] or a string. *)
Definition str_opt (x : option string) : string :=
  match x with Some s => s | None => "None" end.

(** [bool(x)] for such a field. *)
Definition truthy_opt (x : option string) : bool :=
  match x with Some s => PyStr.truthy s | None => false end.

(** What the helper reads of [app.core.config.settings]: each value is
    [None] or a string. *)
Record settings : Type := {
  EMBY_HOST : option string;
  EMBY_API_KEY : option string
}.

(** The one call of the logger outside the request methods:
    [logger.error] when no host is configured. *)
Inductive config_log : Type :=
| error_no_host.

(** [self.set_emby_server(host, api_key)]: the instance after the call,
    and what was logged.  An argument that is falsy is replaced by the
    setting; without a host the method returns before it touches
    [headers]. *)
Definition set_emby_server (cfg : settings) (self : helper)
    (host api_key : option string) : helper * list config_log :=
  let host := if truthy_opt host then host else EMBY_HOST cfg in
  let api_key := if truthy_opt api_key then api_key else EMBY_API_KEY cfg in
  match host with
  | None =>
      ({| base_url := host; api_key := api_key; headers := headers self |},
       [error_no_host])
  | Some url =>
      let url := if PyStr.endswith url "/" then url else url ++ "/" in
      let url := if PyStr.startswith url "http" then url else "http://" ++ url in
      ({| base_url := Some url;
          api_key := api_key;
          headers :=
            if truthy_opt api_key
            then [("X-Emby-Token", str_opt api_key)]
            else [] |},
       [])
  end.

(** [EmbySkipHelper(host, api_key)]: the new instance and what was
    logged.  The server is configured only when an argument is truthy. *)
Definition __init__ (cfg : settings) (host api_key : option string)
    : helper * list config_log :=
  let self := {| base_url := None; api_key := None; headers := [] |} in
  if truthy_opt host || truthy_opt api_key
  then set_emby_server cfg self host api_key
  else (self, []).

(** The request that [requests.get(url, headers=self.headers)] sends. *)
Definition request_for (self : helper) (url : string) : Eff.request :=
  {| Eff.url := url; Eff.headers := headers self; Eff.params := [] |}.

Section Methods.
Context {R : Repr} {World : Type}.
Variable serve : Eff.request -> World -> result Eff.response * World.

Local Abbreviation M := (Eff.M World).
Notation "x <- c ;; k" := (Eff.bind c (fun x => k))
  (at level 61, c at next level, right associativity).
Notation "c ;;; k" := (Eff.bind c (fun _ => k))
  (at level 61, right associativity).

Definition get (self : helper) (url : string) : M Eff.response :=
  Eff.requests_get serve (request_for self url).

(* ------------------------------------------------------------- *)
(** ** [get_next_episode_ids] *)

Definition episodes_url (self : helper) (item_id : value) : string :=
  str_opt (base_url self) ++ "Shows/" ++ str item_id ++ "/Episodes".

(** The loop over [enumerate(episodes_info['Items'])]. *)
Fixpoint next_episode_loop (season_id episode_id : value)
    (episodes : list value) (idx : Z) (ids : list value) : M (list value) :=
  match episodes with
  | [] => Eff.ret ids
  | episode :: rest =>
      index_number <- Eff.lift (getitem episode (PyStr "IndexNumber")) ;;
      reached <- Eff.lift (geb index_number episode_id) ;;
      selected <-
        (if reached : bool then
           parent <- Eff.lift (getitem episode (PyStr "ParentIndexNumber")) ;;
           Eff.ret (eqb season_id parent)
         else Eff.ret false) ;;
      if selected : bool then
        next_episode_item_id <- Eff.lift (getitem episode (PyStr "Id")) ;;
        number <- Eff.lift (add episode_id (PyInt idx)) ;;
        Eff.log (Eff.debug_item number next_episode_item_id) ;;;
        next_episode_loop season_id episode_id rest (idx + 1)
          (ids ++ [next_episode_item_id])
      else next_episode_loop season_id episode_id rest (idx + 1) ids
  end.

Definition get_next_episode_ids_body (self : helper)
    (item_id season_id episode_id : value) : M value :=
  let ids := [] in
  response <- get self (episodes_url self item_id) ;;
  episodes_info <- Eff.lift (Eff.json response) ;;
  items <- Eff.lift (getitem episodes_info (PyStr "Items")) ;;
  episodes <- Eff.lift (iterate items) ;;
  ids <- next_episode_loop season_id episode_id episodes 0 ids ;;
  Eff.ret (PyList ids).

Definition get_next_episode_ids (self : helper)
    (item_id season_id episode_id : value) : M value :=
  Eff.try_except
    (get_next_episode_ids_body self item_id season_id episode_id)
    (fun e => Eff.log (Eff.error_exception e) ;;; Eff.ret (PyList [])).

(* ------------------------------------------------------------- *)
(** ** [get_current_video_item_id] *)

(** The loop over [episodes_info['Items']], followed by [return -1]. *)
Fixpoint current_episode_loop (season_id episode_id : value)
    (episodes : list value) : M value :=
  match episodes with
  | [] => Eff.ret (PyInt (-1))
  | episode :: rest =>
      index_number <- Eff.lift (getitem episode (PyStr "IndexNumber")) ;;
      selected <-
        (if eqb index_number episode_id then
           parent <- Eff.lift (getitem episode (PyStr "ParentIndexNumber")) ;;
           Eff.ret (eqb parent season_id)
         else Eff.ret false) ;;
      if selected : bool then
        item_id <- Eff.lift (getitem episode (PyStr "Id")) ;;
        Eff.log (Eff.debug_item episode_id item_id) ;;;
        Eff.ret item_id
      else current_episode_loop season_id episode_id rest
  end.

Definition get_current_video_item_id_body (self : helper)
    (item_id season_id episode_id : value) : M value :=
  response <- get self (episodes_url self item_id) ;;
  episodes_info <- Eff.lift (Eff.json response) ;;
  items <- Eff.lift (getitem episodes_info (PyStr "Items")) ;;
  episodes <- Eff.lift (iterate items) ;;
  current_episode_loop season_id episode_id episodes.

Definition get_current_video_item_id (self : helper)
    (item_id season_id episode_id : value) : M value :=
  Eff.try_except
    (get_current_video_item_id_body self item_id season_id episode_id)
    (fun e => Eff.log (Eff.error_exception e) ;;; Eff.ret (PyInt (-1))).

(* ------------------------------------------------------------- *)
(** ** [update_intro] and [update_credits] *)

Definition chapter_api (self : helper) : string :=
  str_opt (base_url self) ++ "emby/chapter_api/".

Definition get_chapters_url (self : helper) (item_id : value) : string :=
  chapter_api self ++ "get_chapters?id=" ++ str item_id.

Definition remove_url (self : helper) (item_id : value)
    (old_tags : list value) : string :=
  chapter_api self ++ "update_chapters?id=" ++ str item_id
    ++ "&index_list=" ++ PyStr.join "," (map str old_tags)
    ++ "&action=remove".

Definition add_url (self : helper) (item_id : value)
    (name type time : string) : string :=
  chapter_api self ++ "update_chapters?id=" ++ str item_id
    ++ "&action=add&name=" ++ name ++ "&type=" ++ type
    ++ "&time=" ++ time.

(** The comprehension
    [[chapter['Index'] for chapter in chapters
      if chapter['MarkerType'].startswith(marker)]]. *)
Fixpoint old_tags_of (marker : string) (chapters : list value)
    : result (list value) :=
  match chapters with
  | [] => ok []
  | chapter :: rest =>
      Py.bind (getitem chapter (PyStr "MarkerType")) (fun marker_type =>
      Py.bind (startswith marker_type marker) (fun matches =>
      if matches : bool then
        Py.bind (getitem chapter (PyStr "Index")) (fun index =>
        Py.bind (old_tags_of marker rest) (fun tags =>
        ok (index :: tags)))
      else old_tags_of marker rest))
  end.

(** The first two statements of both methods: read the chapters, then
    ask to remove the markers of the given kind. *)
Definition remove_old (self : helper) (item_id : value) (marker : string)
    : M unit :=
  response <- get self (get_chapters_url self item_id) ;;
  chapter_info <- Eff.lift (Eff.json response) ;;
  chapters <- Eff.lift (getitem chapter_info (PyStr "chapters")) ;;
  chapters <- Eff.lift (iterate chapters) ;;
  old_tags <- Eff.lift (old_tags_of marker chapters) ;;
  get self (remove_url self item_id old_tags) ;;;
  Eff.ret tt.

Definition update_intro_body (self : helper) (item_id intro_end : value)
    : M value :=
  remove_old self item_id "Intro" ;;;
  get self (add_url self item_id "%E7%89%87%E5%A4%B4" "intro_start"
              "00:00:00.000") ;;;
  time <- Eff.lift (format_time intro_end) ;;
  get self (add_url self item_id "%E7%89%87%E5%A4%B4%E7%BB%93%E6%9D%9F"
              "intro_end" time) ;;;
  Eff.ret intro_end.

Definition update_intro (self : helper) (item_id intro_end : value)
    : M value :=
  Eff.try_except (update_intro_body self item_id intro_end)
    (fun e => Eff.log (Eff.error_exception e) ;;; Eff.ret PyNone).

Definition update_credits_body (self : helper)
    (item_id credits_start : value) : M value :=
  remove_old self item_id "Credits" ;;;
  time <- Eff.lift (format_time credits_start) ;;
  get self (add_url self item_id "%E7%89%87%E5%B0%BE" "credits_start"
              time) ;;;
  Eff.ret credits_start.

Definition update_credits (self : helper)
    (item_id credits_start : value) : M value :=
  Eff.try_except (update_credits_body self item_id credits_start)
    (fun e => Eff.log (Eff.error_exception e) ;;; Eff.ret PyNone).

(* ------------------------------------------------------------- *)
(** ** [get_total_time] *)

Definition playback_info_request (self : helper) (item_id : value)
    : Eff.request :=
  let url :=
    str_opt (base_url self) ++ "emby/Items/" ++ str item_id
      ++ "/PlaybackInfo" in
  let params := [] in
  let req_headers :=
    match headers self with [] => [] | _ :: _ => headers self end in
  let params :=
    if truthy_opt (api_key self)
    then (params ++ [("api_key", str_opt (api_key self))])%list
    else params in
  {| Eff.url := url; Eff.headers := req_headers; Eff.params := params |}.

Definition get_total_time_body (self : helper) (item_id : value)
    : M value :=
  response <- Eff.requests_get serve (playback_info_request self item_id) ;;
  video_info <- Eff.lift (Eff.json response) ;;
  media_sources <- Eff.lift (getitem video_info (PyStr "MediaSources")) ;;
  if truthy media_sources then
    video_info <- Eff.lift (getitem media_sources (PyInt 0)) ;;
    total_time_ticks <- Eff.lift (getitem video_info (PyStr "RunTimeTicks")) ;;
    total_time_seconds <-
      Eff.lift (truediv total_time_ticks (PyInt 10000000)) ;;
    Eff.ret total_time_seconds
  else
    Eff.log Eff.error_no_duration ;;;
    Eff.ret (PyInt 0).

Definition get_total_time (self : helper) (item_id : value) : M value :=
  Eff.try_except (get_total_time_body self item_id)
    (fun e => Eff.log (Eff.error_exception e) ;;; Eff.ret (PyInt 0)).

End Methods.


End EmbySkipHelper.

(* ================================================================= *)
(** * Vocabulary of the specification *)

(** ** Strings *)

(** [k] occurs in [p]. *)
Definition substring (k p : string) : Prop :=
  exists before after, p = before ++ k ++ after.

(** [k] is the first item of [l] that occurs in [path]. *)
Definition first_match (path : string) (l : list string) (k : string) : Prop :=
  exists before after,
    l = (before ++ k :: after)%list
    /\ substring k path
    /\ forall x, In x before -> ~ substring x path.

(** The keyword list of [exclude_keyword]: empty for a falsy [keywords]. *)
Definition exclude_list (keywords : string) : list string :=
  match keywords with
  | EmptyString => []
  | String _ _ => PyStr.split "," keywords
  end.

(** [c] does not occur in [s]. *)
Fixpoint free_of (c : ascii) (s : string) : bool :=
  match s with
  | EmptyString => true
  | String d s' => negb (Ascii.eqb d c) && free_of c s'
  end.

(** ** Timestamps *)

(** [n] written on exactly [k] decimal digits (its [k] low digits). *)
Fixpoint decimal (k : nat) (n : Z) : string :=
  match k with
  | O => EmptyString
  | S k' => decimal k' (n / 10) ++ String (PyStr.digit (n mod 10)) EmptyString
  end.

(** The hours of a timestamp: one digit, or two from ten hours on. *)
Definition hours (h : Z) : string :=
  if h <? 10 then decimal 1 h else decimal 2 h.

(** [H:MM:SS.mmm]. *)
Definition timestamp (h m s ms : Z) : string :=
  hours h ++ ":" ++ decimal 2 m ++ ":" ++ decimal 2 s ++ "." ++ decimal 3 ms.

(** ** Objects of a response *)

(** The value of [key] in an object of the response, when the object is a
    dict that has the key. *)
Definition field (key : string) (v : Py.value) : option Py.value :=
  match v with
  | Py.PyDict d => Py.lookup key d
  | _ => None
  end.

(** [episode] carries the id [id]. *)
Definition has_id (episode id : Py.value) : Prop :=
  field "Id" episode = Some id.

(** [get_next_episode_ids] selects an episode whose ['IndexNumber'] is
    greater than or equal to [episode_id] and whose ['ParentIndexNumber']
    equals [season_id]. *)
Definition follows (season_id episode_id episode : Py.value) : bool :=
  match field "IndexNumber" episode, field "ParentIndexNumber" episode with
  | Some index, Some parent =>
      match Py.geb index episode_id with
      | inr true => Py.eqb season_id parent
      | _ => false
      end
  | _, _ => false
  end.

(** [get_current_video_item_id] selects an episode whose ['IndexNumber']
    equals [episode_id] and whose ['ParentIndexNumber'] equals
    [season_id]. *)
Definition is_current (season_id episode_id episode : Py.value) : bool :=
  match field "IndexNumber" episode, field "ParentIndexNumber" episode with
  | Some index, Some parent =>
      Py.eqb index episode_id && Py.eqb parent season_id
  | _, _ => false
  end.

(** [chapter] has a ['MarkerType'] that starts with [marker]. *)
Definition has_marker (marker : string) (chapter : Py.value) : bool :=
  match field "MarkerType" chapter with
  | Some (Py.PyStr s) => PyStr.startswith s marker
  | _ => false
  end.

(** [chapter] carries the index [index]. *)
Definition has_index (chapter index : Py.value) : Prop :=
  field "Index" chapter = Some index.

(** ** Failures *)

(** The failure values the specification lists: the empty list, [-1]
    and [None]. *)
Definition listed_sentinel (v : Py.value) : Prop :=
  v = Py.PyList [] \/ v = Py.PyInt (-1) \/ v = Py.PyNone.

(** A method swallows the failures of its body: it never raises, a run
    in which the body returns gives the body's value in the body's final
    state, and a run in which the body raises logs the exception and
    gives [sentinel]. *)
Definition swallows {World : Type} (method body : Eff.M World Py.value)
    (sentinel : Py.value) : Prop :=
  forall st,
    (exists v st', method st = (inr v, st'))
    /\ (forall v st', body st = (inr v, st') -> method st = (inr v, st'))
    /\ (forall e st', body st = (inl e, st') ->
          method st =
          (inr sentinel,
           {| Eff.world := Eff.world st'; Eff.sent := Eff.sent st';
              Eff.logged := (Eff.logged st' ++ [Eff.error_exception e])%list |})).

(** ** Configuration *)

(** [p] is the beginning of [s]; [p] is the end of [s]. *)
Definition is_prefix (p s : string) : Prop := exists t, s = p ++ t.
Definition is_suffix (p s : string) : Prop := exists t, s = t ++ p.

(** The value [set_emby_server] works with: the argument when it is
    truthy, the setting otherwise. *)
Definition resolved (argument setting : option string) : option string :=
  match argument with
  | Some (String _ _) => argument
  | _ => setting
  end.

(** ** Traces *)

(** Every request a computation sends satisfies [P], whatever the state
    it starts in and however it ends. *)
Definition sends_only {World A : Type} (P : Eff.request -> Prop)
    (c : Eff.M World A) : Prop :=
  forall st, exists trace,
    Eff.sent (snd (c st)) = (Eff.sent st ++ trace)%list /\ Forall P trace.

(** A computation sends exactly the requests [trace], whatever the state
    it starts in and however it ends. *)
Definition sends_exactly {World A : Type} (trace : list Eff.request)
    (c : Eff.M World A) : Prop :=
  forall st, Eff.sent (snd (c st)) = (Eff.sent st ++ trace)%list.

(** A request of the instance [self]: it carries the headers of [self],
    and its URL begins with the base URL of [self]. *)
Definition request_of (self : EmbySkipHelper.helper) (r : Eff.request) : Prop :=
  Eff.headers r = EmbySkipHelper.headers self
  /\ is_prefix (EmbySkipHelper.str_opt (EmbySkipHelper.base_url self)) (Eff.url r).

(** The server answers every request: [requests.get] never raises. *)
Definition answers_all {World : Type}
    (serve : Eff.request -> World -> Py.result Eff.response * World) : Prop :=
  forall r w, exists response, fst (serve r w) = inr response.

(** An episode as the server lists it: its ['IndexNumber'] and its
    ['ParentIndexNumber'] are integers, and it has an ['Id']. *)
Definition plain_episode (episode : Py.value) : Prop :=
  exists index parent id,
    field "IndexNumber" episode = Some (Py.PyInt index)
    /\ field "ParentIndexNumber" episode = Some (Py.PyInt parent)
    /\ field "Id" episode = Some id.

(** An episode [get_current_video_item_id] reads and passes over: it has
    an ['IndexNumber'], which differs from [episode_id], or else it has a
    ['ParentIndexNumber'], which differs from [season_id]. *)
Definition passed_over (season_id episode_id episode : Py.value) : Prop :=
  exists index,
    field "IndexNumber" episode = Some index
    /\ (Py.eqb index episode_id = false
        \/ exists parent,
             field "ParentIndexNumber" episode = Some parent
             /\ Py.eqb parent season_id = false).

(** A chapter the comprehension of the update methods can read: its
    ['MarkerType'] is a string, and it has an ['Index']. *)
Definition readable_chapter (chapter : Py.value) : Prop :=
  exists marker_type index,
    field "MarkerType" chapter = Some (Py.PyStr marker_type)
    /\ field "Index" chapter = Some index.

(* ================================================================= *)
(** * A scripted server, for worked examples *)

Module Script.
Import Py.

(** The server answers the requests with the answers of a script, one
    after the other, and refuses the connection once the script is
    exhausted. *)
Definition serve (r : Eff.request) (script : list (result Eff.response))
    : result Eff.response * list (result Eff.response) :=
  match script with
  | answer :: rest => (answer, rest)
  | [] => (raise RequestException, [])
  end.

Definition start (script : list (result Eff.response))
    : Eff.state (list (result Eff.response)) :=
  {| Eff.world := script; Eff.sent := []; Eff.logged := [] |}.

(** A response whose body parses to [v]. *)
Definition answer (v : value) : result Eff.response :=
  ok {| Eff.json := ok v |}.

(** A response with no JSON body. *)
Definition no_json : result Eff.response :=
  ok {| Eff.json := raise JSONDecodeError |}.

(** Rendering for the examples, which interpolate integers and strings
    only. *)
Definition plain : Repr :=
  {| float_repr := fun _ => "nan"; str_repr := fun s => "'" ++ s ++ "'" |}.

Definition emby : EmbySkipHelper.helper :=
  {| EmbySkipHelper.base_url := Some "http://emby:8096/";
     EmbySkipHelper.api_key := Some "key";
     EmbySkipHelper.headers := [("X-Emby-Token", "key")] |}.

Definition episode (index season : Z) (id : string) : value :=
  PyDict [("IndexNumber", PyInt index); ("ParentIndexNumber", PyInt season);
          ("Id", PyStr id)].

(** Two seasons of a show. *)
Definition episodes : list value :=
  [episode 1 1 "101"; episode 2 1 "102"; episode 3 1 "103";
   episode 1 2 "201"; episode 2 2 "202"].

Definition listing : value := PyDict [("Items", PyList episodes)].

Definition chapter (index : Z) (marker : string) : value :=
  PyDict [("Index", PyInt index); ("MarkerType", PyStr marker)].

Definition chapters : list value :=
  [chapter 0 "IntroStart"; chapter 1 "Chapter"; chapter 2 "IntroEnd";
   chapter 3 "CreditsStart"].

Definition chapter_info : value := PyDict [("chapters", PyList chapters)].

Definition playback_info : value :=
  PyDict [("MediaSources",
           PyList [PyDict [("RunTimeTicks", PyInt 12345678901)]])].

(** A source that was not probed: it has no ['RunTimeTicks']. *)
Definition unprobed_info : value :=
  PyDict [("MediaSources", PyList [PyDict [("Name", PyStr "strm")]])].

(** A special, which the server lists without ['IndexNumber']. *)
Definition special : value :=
  PyDict [("ParentIndexNumber", PyInt 0); ("Id", PyStr "900")].

Definition listing_with_special : value :=
  PyDict [("Items", PyList (episodes ++ [special]))].

(** Settings with a host that has no scheme and no final slash. *)
Definition config : EmbySkipHelper.settings :=
  {| EmbySkipHelper.EMBY_HOST := Some "emby.local:8096";
     EmbySkipHelper.EMBY_API_KEY := Some "secret" |}.

(** Settings with nothing set. *)
Definition no_config : EmbySkipHelper.settings :=
  {| EmbySkipHelper.EMBY_HOST := None;
     EmbySkipHelper.EMBY_API_KEY := None |}.

(** An instance that was never configured. *)
Definition blank : EmbySkipHelper.helper :=
  {| EmbySkipHelper.base_url := None;
     EmbySkipHelper.api_key := None;
     EmbySkipHelper.headers := [] |}.

(** A server that answers every request with the same object. *)
Definition always (v : value) (r : Eff.request) (w : unit)
    : result Eff.response * unit :=
  (ok {| Eff.json := ok v |}, tt).

Definition fresh : Eff.state unit :=
  {| Eff.world := tt; Eff.sent := []; Eff.logged := [] |}.

End Script.

(* ================================================================= *)
(** * Properties of the string operations *)

Lemma startswith_iff (s p : string) :
  PyStr.startswith s p = true <-> exists t, s = p ++ t.
Proof.
  revert s; induction p as [|c p IH]; intros s; simpl.
  - split; [intros _; now exists s | reflexivity].
  - destruct s as [|d s].
    + split; [discriminate | intros [t H]; discriminate].
    + rewrite andb_true_iff, Ascii.eqb_eq, IH. split.
      * intros [-> [t ->]]. now exists t.
      * intros [t H]. injection H as -> ->. split; [reflexivity | now exists t].
Qed.

Lemma contains_iff (hay needle : string) :
  PyStr.contains hay needle = true <-> substring needle hay.
Proof.
  unfold substring. induction hay as [|c hay IH].
  - simpl. rewrite orb_false_r, startswith_iff. split.
    + intros [t H]. now exists EmptyString, t.
    + intros [[|? ?] [after H]]; [now exists after | discriminate].
  - cbn [PyStr.contains]. rewrite orb_true_iff, startswith_iff, IH. split.
    + intros [[t H] | [before [after H]]].
      * now exists EmptyString, t.
      * exists (String c before), after. simpl. now f_equal.
    + intros [[|d before] [after H]].
      * left. now exists after.
      * right. simpl in H. injection H as _ H. now exists before, after.
Qed.

Lemma contains_false_iff (hay needle : string) :
  PyStr.contains hay needle = false <-> ~ substring needle hay.
Proof.
  rewrite <- contains_iff. now destruct (PyStr.contains hay needle).
Qed.

Lemma contains_empty (hay : string) : PyStr.contains hay EmptyString = true.
Proof. now destruct hay. Qed.

Lemma split_not_nil (sep : ascii) (s : string) : PyStr.split sep s <> [].
Proof.
  destruct s as [|c s]; simpl; [discriminate|].
  destruct (Ascii.eqb c sep); [discriminate|].
  destruct (PyStr.split sep s); discriminate.
Qed.

(** Joining the pieces with the separator gives the string back. *)
Lemma join_split (sep : ascii) (s : string) :
  PyStr.join (String sep EmptyString) (PyStr.split sep s) = s.
Proof.
  unfold PyStr.join. induction s as [|c s IH]; [reflexivity|].
  simpl. destruct (Ascii.eqb_spec c sep) as [->|Hc].
  - pose proof (split_not_nil sep s) as Hn.
    destruct (PyStr.split sep s) as [|p ps] eqn:E; [contradiction|].
    cbn [String.concat]. simpl. now rewrite <- IH.
  - pose proof (split_not_nil sep s) as Hn.
    destruct (PyStr.split sep s) as [|p ps] eqn:E; [contradiction|].
    destruct ps as [|q ps]; simpl in *; now rewrite <- IH.
Qed.

(** ** Decimal digits *)

Lemma append_assoc (a b c : string) : (a ++ b) ++ c = a ++ b ++ c.
Proof. induction a as [|x a IH]; simpl; [reflexivity | now rewrite IH]. Qed.

Lemma append_empty_r (a : string) : a ++ EmptyString = a.
Proof. induction a as [|x a IH]; simpl; [reflexivity | now rewrite IH]. Qed.

Lemma length_append (a b : string) :
  String.length (a ++ b) = (String.length a + String.length b)%nat.
Proof. induction a as [|x a IH]; simpl; [reflexivity | now rewrite IH]. Qed.

Lemma length_decimal (k : nat) (n : Z) : String.length (decimal k n) = k.
Proof.
  revert n; induction k as [|k IH]; intros n; simpl; [reflexivity|].
  rewrite length_append, IH. simpl. lia.
Qed.

(** The digits [str] gives a non-negative integer of [k] digits. *)
Lemma digits_onto_decimal (k : nat) :
  forall fuel n acc,
    (k <= fuel)%nat -> 0 <= n < 10 ^ Z.of_nat (S k) ->
    (k = O \/ 10 ^ Z.of_nat k <= n) ->
    PyStr.digits_onto fuel n acc = decimal (S k) n ++ acc.
Proof.
  induction k as [|k IH]; intros fuel n acc Hfuel Hn Hlow.
  - change (10 ^ Z.of_nat 1) with 10 in Hn.
    assert (E : (n <? 10) = true) by (apply Z.ltb_lt; lia).
    destruct fuel; simpl; now rewrite ?E.
  - destruct Hlow as [|Hlow]; [discriminate|].
    destruct fuel as [|fuel]; [lia|].
    assert (H10 : 10 <= n).
    { eapply Z.le_trans; [|exact Hlow].
      rewrite Nat2Z.inj_succ, Z.pow_succ_r by lia.
      assert (0 < 10 ^ Z.of_nat k) by (apply Z.pow_pos_nonneg; lia). lia. }
    cbn [PyStr.digits_onto].
    assert (E : (n <? 10) = false) by (apply Z.ltb_ge; lia). rewrite E.
    rewrite IH.
    + cbn [decimal]. rewrite !append_assoc. reflexivity.
    + lia.
    + rewrite (Nat2Z.inj_succ (S k)), Z.pow_succ_r in Hn by lia.
      split; [apply Z.div_pos; lia|].
      apply Z.div_lt_upper_bound; lia.
    + right. rewrite Nat2Z.inj_succ, Z.pow_succ_r in Hlow by lia.
      apply Z.div_le_lower_bound; lia.
Qed.

Lemma log2_pow10 (k : nat) (n : Z) :
  10 ^ Z.of_nat k <= n -> (k <= Z.to_nat (Z.log2 n))%nat.
Proof.
  intros H.
  assert (H2 : 2 ^ Z.of_nat k <= n).
  { eapply Z.le_trans; [|exact H]. apply Z.pow_le_mono_l. lia. }
  apply Z.log2_le_mono in H2. rewrite Z.log2_pow2 in H2 by lia. lia.
Qed.

Lemma of_int_decimal (k : nat) (n : Z) :
  0 <= n < 10 ^ Z.of_nat (S k) -> (k = O \/ 10 ^ Z.of_nat k <= n) ->
  PyStr.of_int n = decimal (S k) n.
Proof.
  intros Hn Hlow. unfold PyStr.of_int, PyStr.digits.
  assert (E : (n <? 0) = false) by (apply Z.ltb_ge; lia). rewrite E.
  rewrite (digits_onto_decimal k); [apply append_empty_r | | assumption | assumption].
  destruct Hlow as [->|Hlow]; [lia | now apply log2_pow10].
Qed.

(** The number of digits of a non-negative integer below [10 ^ w]. *)
Lemma digit_count (w : nat) :
  forall n, 0 <= n < 10 ^ Z.of_nat (S w) ->
    exists k, (k <= w)%nat /\ n < 10 ^ Z.of_nat (S k)
              /\ (k = O \/ 10 ^ Z.of_nat k <= n).
Proof.
  induction w as [|w IH]; intros n Hn.
  - exists O. repeat split; [lia | apply Hn | now left].
  - destruct (Z_lt_le_dec n (10 ^ Z.of_nat (S w))) as [Hlt|Hge].
    + destruct (IH n) as [k [Hk H]]; [lia|]. exists k. split; [lia | exact H].
    + exists (S w). repeat split; [lia | apply Hn | now right].
Qed.

Lemma zeros_snoc (j : nat) :
  PyStr.zeros j ++ "0" = String "0" (PyStr.zeros j).
Proof. induction j as [|j IH]; simpl; [reflexivity | now rewrite IH]. Qed.

Lemma decimal_zero (j : nat) : decimal j 0 = PyStr.zeros j.
Proof.
  induction j as [|j IH]; [reflexivity|].
  cbn [decimal]. change (0 / 10) with 0. rewrite IH.
  change (PyStr.digit (0 mod 10)) with "0"%char. apply zeros_snoc.
Qed.

(** Writing on more digits puts zeros in front. *)
Lemma decimal_pad (j k : nat) :
  forall n, 0 <= n < 10 ^ Z.of_nat k ->
    decimal (j + k) n = PyStr.zeros j ++ decimal k n.
Proof.
  induction k as [|k IH]; intros n Hn.
  - change (10 ^ Z.of_nat 0) with 1 in Hn. assert (n = 0) as -> by lia.
    rewrite Nat.add_0_r, decimal_zero. symmetry. apply append_empty_r.
  - rewrite Nat.add_succ_r. cbn [decimal].
    rewrite IH, append_assoc; [reflexivity|].
    rewrite Nat2Z.inj_succ, Z.pow_succ_r in Hn by lia.
    split; [apply Z.div_pos; lia | apply Z.div_lt_upper_bound; lia].
Qed.

Lemma free_of_append (c : ascii) (a b : string) :
  free_of c (a ++ b) = free_of c a && free_of c b.
Proof.
  induction a as [|x a IH]; simpl; [reflexivity|].
  now rewrite IH, andb_assoc.
Qed.

Lemma digit_cases (d : Z) :
  0 <= d < 10 ->
  In (PyStr.digit d)
     ["0"; "1"; "2"; "3"; "4"; "5"; "6"; "7"; "8"; "9"]%char.
Proof.
  intros H.
  assert (d = 0 \/ d = 1 \/ d = 2 \/ d = 3 \/ d = 4 \/ d = 5 \/ d = 6
          \/ d = 7 \/ d = 8 \/ d = 9) as Hd by lia.
  repeat (destruct Hd as [->|Hd]; [simpl; tauto|]). subst d. simpl; tauto.
Qed.

Lemma free_of_decimal (c : ascii) (k : nat) (n : Z) :
  ~ In c ["0"; "1"; "2"; "3"; "4"; "5"; "6"; "7"; "8"; "9"]%char ->
  free_of c (decimal k n) = true.
Proof.
  intros Hc. revert n; induction k as [|k IH]; intros n; [reflexivity|].
  cbn [decimal]. rewrite free_of_append, IH. cbn [free_of andb].
  rewrite andb_true_r. apply negb_true_iff, Ascii.eqb_neq. intros E. apply Hc. rewrite <- E.
  apply digit_cases. apply Z.mod_pos_bound. lia.
Qed.

Lemma zfill_unsigned (w : nat) (s : string) :
  free_of "-" s = true -> free_of "+" s = true ->
  PyStr.zfill w s = PyStr.zeros (w - String.length s) ++ s.
Proof.
  intros Hm Hp. unfold PyStr.zfill. destruct s as [|c s].
  - now rewrite append_empty_r.
  - simpl in Hm, Hp. apply andb_true_iff in Hm as [Hm _], Hp as [Hp _].
    apply negb_true_iff in Hm, Hp. now rewrite Hm, Hp.
Qed.

Lemma not_a_digit (c : ascii) :
  (48 <=? Z.of_nat (nat_of_ascii c)) && (Z.of_nat (nat_of_ascii c) <=? 57) = false ->
  ~ In c ["0"; "1"; "2"; "3"; "4"; "5"; "6"; "7"; "8"; "9"]%char.
Proof.
  intros H Hin. simpl in Hin.
  repeat (destruct Hin as [<-|Hin]; [discriminate H|]). exact Hin.
Qed.

(** [%0wd] writes a non-negative integer below [10 ^ w] on [w] digits. *)
Lemma of_int_width_decimal (w : nat) (n : Z) :
  0 <= n < 10 ^ Z.of_nat (S w) ->
  PyStr.of_int_width (S w) n = decimal (S w) n.
Proof.
  intros Hn. destruct (digit_count w n Hn) as [k [Hk [Hlt Hlow]]].
  unfold PyStr.of_int_width. rewrite (of_int_decimal k) by (auto; lia).
  rewrite zfill_unsigned, length_decimal
    by (apply free_of_decimal, not_a_digit; reflexivity).
  replace (S w) with ((S w - S k) + S k)%nat at 2 by lia.
  symmetry. apply decimal_pad. lia.
Qed.

Lemma take_append (k : nat) (a b : string) :
  (k <= String.length a)%nat -> PyStr.take k (a ++ b) = PyStr.take k a.
Proof.
  revert a; induction k as [|k IH]; intros a H; [reflexivity|].
  destruct a as [|x a]; simpl in H; [lia|].
  cbn [PyStr.take append]. rewrite IH by lia. reflexivity.
Qed.

Lemma take_all (a : string) : PyStr.take (String.length a) a = a.
Proof. induction a as [|x a IH]; simpl; [reflexivity | now rewrite IH]. Qed.

(** The [k] leading digits of a number written on [k + j] digits. *)
Lemma take_decimal (k j : nat) :
  forall n, 0 <= n ->
    PyStr.take k (decimal (k + j) n) = decimal k (n / 10 ^ Z.of_nat j).
Proof.
  induction j as [|j IH]; intros n Hn.
  - rewrite Nat.add_0_r. change (10 ^ Z.of_nat 0) with 1. rewrite Z.div_1_r.
    rewrite <- (length_decimal k n) at 1. apply take_all.
  - rewrite Nat.add_succ_r. cbn [decimal].
    rewrite take_append by (rewrite length_decimal; lia).
    rewrite IH by (apply Z.div_pos; lia).
    rewrite Nat2Z.inj_succ, Z.pow_succ_r by lia.
    rewrite Z.div_div by (try apply Z.pow_pos_nonneg; lia). reflexivity.
Qed.

(** Splitting a string whose first piece is known. *)
Lemma split_free (sep : ascii) (a : string) :
  free_of sep a = true -> PyStr.split sep a = [a].
Proof.
  induction a as [|x a IH]; intros H; [reflexivity|].
  cbn [free_of] in H. apply andb_true_iff in H as [Hx Ha].
  apply negb_true_iff in Hx. cbn [PyStr.split]. now rewrite Hx, IH.
Qed.

Lemma split_first (sep : ascii) (a b : string) :
  free_of sep a = true ->
  PyStr.split sep (a ++ String sep b) = a :: PyStr.split sep b.
Proof.
  induction a as [|x a IH]; intros H.
  - cbn [append PyStr.split]. now rewrite Ascii.eqb_refl.
  - cbn [free_of] in H. apply andb_true_iff in H as [Hx Ha].
    apply negb_true_iff in Hx. cbn [append PyStr.split]. now rewrite Hx, IH.
Qed.

Lemma of_int_hours (h : Z) : 0 <= h < 24 -> PyStr.of_int h = hours h.
Proof.
  intros H. unfold hours. destruct (Z.ltb_spec h 10).
  - apply (of_int_decimal 0); [change (10 ^ Z.of_nat 1) with 10; lia | now left].
  - apply (of_int_decimal 1);
      [change (10 ^ Z.of_nat 2) with 100; lia
      | right; change (10 ^ Z.of_nat 1) with 10; lia].
Qed.

Lemma free_of_hours (c : ascii) (h : Z) :
  ~ In c ["0"; "1"; "2"; "3"; "4"; "5"; "6"; "7"; "8"; "9"]%char ->
  free_of c (hours h) = true.
Proof. intros H. unfold hours. destruct (h <? 10); now apply free_of_decimal. Qed.

(* ================================================================= *)
(** * The keyword filters *)

(** What the loop of [include_keyword] leaves in [(flag, msg)]. *)
Lemma include_loop_find (path : string) (l : list string) :
  include_loop path l false EmptyString =
  match find (PyStr.contains path) l with
  | Some k => (true, k)
  | None => (false, EmptyString)
  end.
Proof.
  induction l as [|k l IH]; simpl; [reflexivity|].
  now destruct (PyStr.contains path k).
Qed.

Lemma exclude_loop_find (path : string) (l : list string) :
  exclude_loop path l =
  match find (PyStr.contains path) l with
  | Some k => {| ret := false; msg := k |}
  | None => {| ret := true; msg := EmptyString |}
  end.
Proof.
  induction l as [|k l IH]; simpl; [reflexivity|].
  now destruct (PyStr.contains path k).
Qed.

Lemma find_first_match (path : string) (l : list string) (k : string) :
  find (PyStr.contains path) l = Some k <-> first_match path l k.
Proof.
  unfold first_match. revert k; induction l as [|x l IH]; intros k; simpl.
  - split; [discriminate|].
    intros [[|? ?] [after [H _]]]; discriminate.
  - destruct (PyStr.contains path x) eqn:E.
    + split.
      * intros [= ->]. exists [], l. rewrite <- contains_iff. now repeat split.
      * intros [[|y before] [after [H [_ Hb]]]].
        -- now injection H as -> _.
        -- injection H as -> _. exfalso. apply (Hb y); [now left|].
           now rewrite <- contains_iff.
    + rewrite IH. split.
      * intros [before [after [-> [Hk Hb]]]].
        exists (x :: before), after. repeat split; [assumption|].
        intros y [<-|Hy]; [now rewrite <- contains_false_iff | now apply Hb].
      * intros [[|y before] [after [H [Hk Hb]]]].
        -- injection H as -> _. rewrite <- contains_iff in Hk. congruence.
        -- injection H as _ ->. exists before, after. repeat split; [assumption|].
           intros z Hz. apply Hb. now right.
Qed.

Lemma find_none_iff (path : string) (l : list string) :
  find (PyStr.contains path) l = None
  <-> forall k, In k l -> ~ substring k path.
Proof.
  induction l as [|x l IH]; simpl.
  - split; [intros _ k [] | reflexivity].
  - destruct (PyStr.contains path x) eqn:E.
    + split; [discriminate|]. intros H. exfalso.
      apply (H x); [now left | now rewrite <- contains_iff].
    + rewrite IH. split.
      * intros H k [<-|Hk]; [now rewrite <- contains_false_iff | now apply H].
      * intros H k Hk. apply H. now right.
Qed.

(** C2.  [include_keyword(path, keywords)] returns [{'ret': True, 'msg': k}]
    for the first item [k] of [keywords.split(',')] that occurs in [path],
    and [{'ret': False, 'msg': ''}] when no item occurs in [path]. *)
Theorem include_keyword_first_match (path keywords : string) :
  (forall k, first_match path (PyStr.split "," keywords) k ->
             include_keyword path keywords = {| ret := true; msg := k |})
  /\ ((forall k, In k (PyStr.split "," keywords) -> ~ substring k path) ->
      include_keyword path keywords = {| ret := false; msg := EmptyString |}).
Proof.
  unfold include_keyword. rewrite include_loop_find. split.
  - intros k Hk. apply find_first_match in Hk. now rewrite Hk.
  - intros H. apply find_none_iff in H. now rewrite H.
Qed.

Lemma exclude_keyword_find (path keywords : string) :
  exclude_keyword path keywords =
  match find (PyStr.contains path) (exclude_list keywords) with
  | Some k => {| ret := false; msg := k |}
  | None => {| ret := true; msg := EmptyString |}
  end.
Proof.
  unfold exclude_keyword. rewrite exclude_loop_find. now destruct keywords.
Qed.

(** C3.  [exclude_keyword(path, keywords)] returns [{'ret': True, 'msg': ''}]
    exactly when no item of the keyword list (the split of [keywords], or
    the empty list when [keywords] is falsy) occurs in [path]; otherwise it
    returns [{'ret': False, 'msg': k}] for the first item [k] that does. *)
Theorem exclude_keyword_no_match (path keywords : string) :
  (exclude_keyword path keywords = {| ret := true; msg := EmptyString |}
   <-> forall k, In k (exclude_list keywords) -> ~ substring k path)
  /\ (forall k, first_match path (exclude_list keywords) k ->
                exclude_keyword path keywords = {| ret := false; msg := k |}).
Proof.
  rewrite exclude_keyword_find. split.
  - rewrite <- find_none_iff.
    destruct (find (PyStr.contains path) (exclude_list keywords));
      split; intros H; [discriminate | discriminate | reflexivity | reflexivity].
  - intros k Hk. apply find_first_match in Hk. now rewrite Hk.
Qed.

(** C9.  With the empty [keywords], [include_keyword] splits it into the one
    empty keyword, which occurs in every path, and so returns
    [{'ret': True, 'msg': ''}]; [exclude_keyword] takes the keyword list to
    be empty and returns [{'ret': True, 'msg': ''}] as well. *)
Theorem empty_keywords (path : string) :
  PyStr.split "," EmptyString = [EmptyString]
  /\ substring EmptyString path
  /\ include_keyword path EmptyString = {| ret := true; msg := EmptyString |}
  /\ exclude_list EmptyString = []
  /\ exclude_keyword path EmptyString = {| ret := true; msg := EmptyString |}.
Proof.
  repeat split.
  - now exists EmptyString, path.
  - unfold include_keyword. simpl. now rewrite contains_empty.
Qed.

(** C10.  For a non-empty [keywords], the ['ret'] of [exclude_keyword] is
    the negation of the ['ret'] of [include_keyword]. *)
Theorem exclude_negates_include (path keywords : string) :
  keywords <> EmptyString ->
  ret (exclude_keyword path keywords) = negb (ret (include_keyword path keywords)).
Proof.
  intros H. rewrite exclude_keyword_find. unfold include_keyword.
  rewrite include_loop_find.
  destruct keywords as [|c s]; [contradiction|]. unfold exclude_list.
  now destruct (find (PyStr.contains path) (PyStr.split "," (String c s))).
Qed.

Lemma exclude_negates_include_witness :
  "anime,4K" <> EmptyString
  /\ ret (exclude_keyword "/media/anime/ep01.mkv" "anime,4K") = false
  /\ ret (exclude_keyword "/media/anime/ep01.mkv" "anime,4K")
     = negb (ret (include_keyword "/media/anime/ep01.mkv" "anime,4K")).
Proof.
  split; [discriminate|]. split; [reflexivity|].
  apply (exclude_negates_include "/media/anime/ep01.mkv" "anime,4K").
  discriminate.
Defined.

(* ================================================================= *)
(** * The timestamps of [format_time] *)

Lemma item_first {A : Type} (x : A) (l : list A) : Py.item (x :: l) 0 = inr x.
Proof.
  unfold Py.item, Py.index_in. cbn [List.length].
  rewrite Nat2Z.inj_succ.
  assert (E : (0 <? Z.succ (Z.of_nat (List.length l))) = true)
    by (apply Z.ltb_lt; lia).
  rewrite E. reflexivity.
Qed.

(** The timestamp of a moment [us] microseconds after the epoch, within
    the first day. *)
Lemma format_time_of_micros (seconds : Py.value) (us : Z) :
  Datetime.utcfromtimestamp seconds = inr {| Datetime.since_epoch := us |} ->
  0 <= us < Datetime.day_us ->
  EmbySkipHelper.format_time seconds
  = inr (timestamp (us / 3600000000) (us / 60000000 mod 60)
                   (us / 1000000 mod 60) (us / 1000 mod 1000)).
Proof.
  intros Ht Hus. unfold Datetime.day_us in Hus.
  unfold EmbySkipHelper.format_time. rewrite Ht. cbn [Py.bind].
  change (Datetime.utcfromtimestamp (Py.PyInt 0))
    with (@inr Py.exn _ {| Datetime.since_epoch := 0 |}).
  cbn [Py.bind]. unfold Datetime.sub, Datetime.str, Datetime.day_us.
  cbn [Datetime.since_epoch Datetime.days Datetime.seconds Datetime.microseconds].
  rewrite Z.sub_0_r.
  rewrite (Z.div_small us (86400 * 1000000)),
    (Z.mod_small us (86400 * 1000000)) by lia.
  change (0 =? 0) with true. cbv iota.
  assert (Hh : us / 1000000 / 60 / 60 = us / 3600000000)
    by (Z.div_mod_to_equations; lia).
  assert (Hm : us / 1000000 / 60 mod 60 = us / 60000000 mod 60)
    by (Z.div_mod_to_equations; lia).
  assert (Hms : us mod 1000000 / 10 ^ Z.of_nat 3 = us / 1000 mod 1000)
    by (change (10 ^ Z.of_nat 3) with 1000; Z.div_mod_to_equations; lia).
  rewrite Hh, Hm.
  rewrite of_int_hours by (Z.div_mod_to_equations; lia).
  rewrite !(of_int_width_decimal 1)
    by (change (10 ^ Z.of_nat 2) with 100; Z.div_mod_to_equations; lia).
  assert (Hfrac :
            PyStr.take 3 (PyStr.zfill 6 (PyStr.of_int (us mod 1000000)))
            = decimal 3 (us / 1000 mod 1000)).
  { change (PyStr.zfill 6 (PyStr.of_int (us mod 1000000)))
      with (PyStr.of_int_width 6 (us mod 1000000)).
    rewrite (of_int_width_decimal 5)
      by (change (10 ^ Z.of_nat 6) with 1000000; Z.div_mod_to_equations; lia).
    rewrite (take_decimal 3 3) by (Z.div_mod_to_equations; lia).
    now rewrite Hms. }
  rewrite Hfrac.
  set (hms := hours (us / 3600000000) ++ ":" ++ decimal 2 (us / 60000000 mod 60)
                ++ ":" ++ decimal 2 (us / 1000000 mod 60)).
  assert (Hfree : free_of "." hms = true).
  { unfold hms. rewrite !free_of_append.
    rewrite free_of_hours, !free_of_decimal
      by (apply not_a_digit; reflexivity).
    reflexivity. }
  assert (Hwhole :
            Py.item
              (PyStr.split "."
                 (if us mod 1000000 =? 0 then hms
                  else hms ++ "." ++ PyStr.of_int_width 6 (us mod 1000000))) 0
            = inr hms).
  { destruct (us mod 1000000 =? 0).
    - rewrite split_free by assumption. apply item_first.
    - change ("." ++ PyStr.of_int_width 6 (us mod 1000000))
        with (String "." (PyStr.of_int_width 6 (us mod 1000000))).
      rewrite split_first by assumption. apply item_first. }
  rewrite Hwhole. cbn [Py.bind]. unfold Py.ok, timestamp. f_equal.
  unfold hms. now rewrite !append_assoc.
Qed.

(** A whole number of seconds below a day is such a timestamp. *)
Lemma utcfromtimestamp_int (n : Z) :
  0 <= n < 86400 ->
  Datetime.utcfromtimestamp (Py.PyInt n)
  = inr {| Datetime.since_epoch := n * 1000000 |}.
Proof.
  intros Hn.
  unfold Datetime.utcfromtimestamp, Datetime.timeval, Py.bind, Py.ok.
  unfold Datetime.min_second, Datetime.max_second.
  assert (E1 : (n <? - 2 ^ 63) = false) by (apply Z.ltb_ge; lia).
  assert (E2 : (2 ^ 63 <=? n) = false) by (apply Z.leb_gt; lia).
  assert (E3 : (n <? -62135596800) = false) by (apply Z.ltb_ge; lia).
  assert (E4 : (253402300799 <? n) = false) by (apply Z.ltb_ge; lia).
  rewrite E1, E2, E3, E4. cbn [orb]. now rewrite Z.add_0_r.
Qed.

(** For a timestamp that [datetime] places [us] microseconds after the
    epoch, with [us] within the first day, [format_time] returns
    [H:MM:SS.mmm]: the hours without padding, the minutes and the seconds
    on two digits, and the milliseconds on three digits, which are the
    first three of the six digits of the microseconds.  A whole number
    [n] of seconds below a day is such a timestamp, and [format_time(n)]
    is [H:MM:SS.000]. *)
Theorem format_time_within_a_day :
  (forall (seconds : Py.value) (us : Z),
      Datetime.utcfromtimestamp seconds = inr {| Datetime.since_epoch := us |} ->
      0 <= us < Datetime.day_us ->
      EmbySkipHelper.format_time seconds
      = inr (timestamp (us / 3600000000) (us / 60000000 mod 60)
                       (us / 1000000 mod 60) (us / 1000 mod 1000)))
  /\ (forall n : Z,
        0 <= n < 86400 ->
        EmbySkipHelper.format_time (Py.PyInt n)
        = inr (timestamp (n / 3600) (n / 60 mod 60) (n mod 60) 0)).
Proof.
  split; [exact format_time_of_micros|].
  intros n Hn.
  rewrite (format_time_of_micros _ _ (utcfromtimestamp_int n Hn))
    by (unfold Datetime.day_us; lia).
  f_equal. f_equal; Z.div_mod_to_equations; lia.
Qed.

(* ================================================================= *)
(** * The request methods *)

Section Requests.
Import Py EmbySkipHelper.
Context {R : Repr} {World : Type}.
Variable serve : Eff.request -> World -> result Eff.response * World.

(** ** Failures *)

Lemma try_except_swallows (body : Eff.M World value) (sentinel : value) :
  swallows
    (Eff.try_except body
       (fun e => Eff.bind (Eff.log (Eff.error_exception e))
                   (fun _ => Eff.ret sentinel)))
    body sentinel.
Proof.
  intros st. unfold Eff.try_except, Eff.bind, Eff.log, Eff.ret.
  destruct (body st) as [[e|v] st1]; cbn.
  - split; [eauto|]. split; [intros ? ? [=] | now intros ? ? [= <- <-]].
  - split; [eauto|]. split; [now intros ? ? [= <- <-] | intros ? ? [=]].
Qed.

(** C1, as amended.  No request method propagates an exception.  When
    its body raises, the method logs the exception and returns its own
    failure value: the empty list for [get_next_episode_ids], [-1] for
    [get_current_video_item_id], [None] for [update_intro] and
    [update_credits], and [0] for [get_total_time]. *)
Theorem methods_swallow_failures
    (self : helper) (item_id season_id episode_id time : value) :
  swallows (get_next_episode_ids serve self item_id season_id episode_id)
    (get_next_episode_ids_body serve self item_id season_id episode_id)
    (PyList [])
  /\ swallows
       (get_current_video_item_id serve self item_id season_id episode_id)
       (get_current_video_item_id_body serve self item_id season_id episode_id)
       (PyInt (-1))
  /\ swallows (update_intro serve self item_id time)
       (update_intro_body serve self item_id time) PyNone
  /\ swallows (update_credits serve self item_id time)
       (update_credits_body serve self item_id time) PyNone
  /\ swallows (get_total_time serve self item_id)
       (get_total_time_body serve self item_id) (PyInt 0).
Proof. repeat split; apply try_except_swallows. Qed.

(** ** Episodes *)

Lemma getitem_field (v x : Py.value) (key : string) :
  Py.getitem v (Py.PyStr key) = inr x <-> field key v = Some x.
Proof.
  destruct v; simpl; try (split; discriminate).
  unfold Py.ok, Py.raise.
  destruct (Py.lookup key items); split; intros H;
    try discriminate; injection H as <-; reflexivity.
Qed.

(** A run of the loop of [get_next_episode_ids] that does not raise
    appends the ids of the selected episodes, in order. *)
Lemma next_episode_loop_returns (season_id episode_id : value)
    (episodes : list value) :
  forall idx ids st out st',
    next_episode_loop (World := World) season_id episode_id episodes idx ids st
      = (inr out, st') ->
    exists new,
      out = (ids ++ new)%list
      /\ Forall2 has_id (filter (follows season_id episode_id) episodes) new.
Proof.
  induction episodes as [|episode rest IH]; intros idx ids st out st' H.
  - injection H as <- _. exists []. split; [now rewrite app_nil_r | constructor].
  - cbn [next_episode_loop] in H.
    unfold Eff.bind, Eff.lift, Eff.ret, Eff.log in H. cbn [filter].
    unfold follows at 1.
    destruct (getitem episode (PyStr "IndexNumber")) as [?|index] eqn:Ei;
      [discriminate|].
    apply getitem_field in Ei. rewrite Ei.
    destruct (geb index episode_id) as [?|[|]] eqn:Eg; [discriminate| |].
    + destruct (getitem episode (PyStr "ParentIndexNumber")) as [?|parent] eqn:Ep;
        [discriminate|].
      apply getitem_field in Ep. rewrite Ep.
      destruct (eqb season_id parent) eqn:Es.
      * destruct (getitem episode (PyStr "Id")) as [?|id] eqn:Eid;
          [discriminate|].
        apply getitem_field in Eid.
        destruct (add episode_id (PyInt idx)) as [?|number]; [discriminate|].
        apply IH in H as [new [-> Hnew]].
        exists (id :: new). split; [now rewrite <- app_assoc|].
        now constructor.
      * now apply IH in H.
    + destruct (field "ParentIndexNumber" episode); now apply IH in H.
Qed.

(** C6.  When the server answers the episodes request with an object
    whose ['Items'] is the list [episodes], [get_next_episode_ids]
    returns a list: the empty list when an exception occurred, and
    otherwise exactly the ['Id'] of the episodes, in the order of the
    response, whose ['IndexNumber'] is greater than or equal to
    [episode_id] and whose ['ParentIndexNumber'] equals [season_id]; so
    the list is empty when no episode is selected. *)
Theorem get_next_episode_ids_selected
    (self : helper) (item_id season_id episode_id : value)
    (st : Eff.state World) (response : Eff.response) (w : World)
    (info : value) (episodes : list value) :
  serve (request_for self (episodes_url self item_id)) (Eff.world st) = (inr response, w) ->
  Eff.json response = inr info ->
  field "Items" info = Some (PyList episodes) ->
  exists ids,
    fst (get_next_episode_ids serve self item_id season_id episode_id st)
      = inr (PyList ids)
    /\ ((exists e,
           fst (get_next_episode_ids_body serve self item_id season_id
                  episode_id st) = inl e)
        /\ ids = []
        \/ fst (get_next_episode_ids_body serve self item_id season_id
                  episode_id st) = inr (PyList ids)
           /\ Forall2 has_id
                (filter (follows season_id episode_id) episodes) ids)
    /\ (filter (follows season_id episode_id) episodes = [] -> ids = []).
Proof.
  intros Hserve Hjson Hitems.
  destruct (try_except_swallows
              (get_next_episode_ids_body serve self item_id season_id episode_id)
              (PyList []) st) as [_ [Hret Hraise]].
  fold (get_next_episode_ids serve self item_id season_id episode_id) in Hret, Hraise.
  destruct (get_next_episode_ids_body serve self item_id season_id episode_id st)
    as [[e|v] st1] eqn:Hbody.
  - exists []. rewrite (Hraise e st1 eq_refl). cbn. split; [reflexivity|].
    split; [left; eauto | reflexivity].
  - rewrite (Hret v st1 eq_refl). cbn.
    unfold get_next_episode_ids_body, get, Eff.bind, Eff.requests_get in Hbody.
    rewrite Hserve in Hbody. unfold Eff.lift in Hbody. rewrite Hjson in Hbody.
    apply getitem_field in Hitems. rewrite Hitems in Hbody.
    unfold iterate, ok, Eff.ret in Hbody.
    match type of Hbody with
    | context [next_episode_loop ?s ?e ?l ?i ?a ?t] =>
        destruct (next_episode_loop s e l i a t) as [[?|out] st2] eqn:Hloop
    end; [discriminate|].
    injection Hbody as <- _.
    apply next_episode_loop_returns in Hloop as [new [-> Hnew]].
    exists new. split; [reflexivity|]. split; [now right|].
    intros Hnone. rewrite Hnone in Hnew. now inversion Hnew.
Qed.

(** A run of the loop of [get_current_video_item_id] that does not
    raise returns the id of the first selected episode, or [-1] when it
    passes every episode without selecting one. *)
Lemma current_episode_loop_returns (season_id episode_id : value)
    (episodes : list value) :
  forall st v st',
    current_episode_loop (World := World) season_id episode_id episodes st
      = (inr v, st') ->
    (exists before episode after,
       episodes = (before ++ episode :: after)%list
       /\ Forall (fun x => is_current season_id episode_id x = false) before
       /\ is_current season_id episode_id episode = true
       /\ has_id episode v)
    \/ (Forall (fun x => is_current season_id episode_id x = false) episodes
        /\ v = PyInt (-1)).
Proof.
  induction episodes as [|episode rest IH]; intros st v st' H.
  - injection H as <- _. right. now split.
  - cbn [current_episode_loop] in H.
    unfold Eff.bind, Eff.lift, Eff.ret, Eff.log in H.
    destruct (getitem episode (PyStr "IndexNumber")) as [?|index] eqn:Ei;
      [discriminate|].
    apply getitem_field in Ei.
    assert (Hskip : is_current season_id episode_id episode = false ->
                    current_episode_loop season_id episode_id rest st = (inr v, st') ->
                    (exists before episode0 after,
                        episode :: rest = (before ++ episode0 :: after)%list
                        /\ Forall (fun x => is_current season_id episode_id x = false) before
                        /\ is_current season_id episode_id episode0 = true
                        /\ has_id episode0 v)
                    \/ (Forall (fun x => is_current season_id episode_id x = false)
                          (episode :: rest) /\ v = PyInt (-1))).
    { intros Hno Hrest. apply IH in Hrest as [(before & ep & after & -> & Hb & Hc & Hid) | [Hall ->]].
      - left. exists (episode :: before), ep, after. repeat split; auto.
      - right. split; auto. }
    destruct (eqb index episode_id) eqn:Ee.
    + destruct (getitem episode (PyStr "ParentIndexNumber")) as [?|parent] eqn:Ep;
        [discriminate|].
      apply getitem_field in Ep.
      destruct (eqb parent season_id) eqn:Es.
      * destruct (getitem episode (PyStr "Id")) as [?|id] eqn:Eid;
          [discriminate|].
        apply getitem_field in Eid. injection H as <- _.
        left. exists [], episode, rest. repeat split; auto.
        unfold is_current. now rewrite Ei, Ep, Ee, Es.
      * apply Hskip; [|assumption].
        unfold is_current. now rewrite Ei, Ep, Ee, Es.
    + apply Hskip; [|assumption].
      unfold is_current. rewrite Ei, Ee.
      now destruct (field "ParentIndexNumber" episode).
Qed.

(** C7.  When the server answers the episodes request with an object
    whose ['Items'] is the list [episodes],
    [get_current_video_item_id] returns [-1] when an exception occurred,
    and otherwise the ['Id'] of the first episode whose ['IndexNumber']
    equals [episode_id] and whose ['ParentIndexNumber'] equals
    [season_id], or [-1] when there is no such episode. *)
Theorem get_current_video_item_id_first
    (self : helper) (item_id season_id episode_id : value)
    (st : Eff.state World) (response : Eff.response) (w : World)
    (info : value) (episodes : list value) :
  serve (request_for self (episodes_url self item_id)) (Eff.world st) = (inr response, w) ->
  Eff.json response = inr info ->
  field "Items" info = Some (PyList episodes) ->
  exists v,
    fst (get_current_video_item_id serve self item_id season_id episode_id st)
      = inr v
    /\ ((exists e,
           fst (get_current_video_item_id_body serve self item_id season_id
                  episode_id st) = inl e)
        /\ v = PyInt (-1)
        \/ fst (get_current_video_item_id_body serve self item_id season_id
                  episode_id st) = inr v
           /\ ((exists before episode after,
                  episodes = (before ++ episode :: after)%list
                  /\ Forall (fun x => is_current season_id episode_id x = false)
                       before
                  /\ is_current season_id episode_id episode = true
                  /\ has_id episode v)
               \/ (Forall (fun x => is_current season_id episode_id x = false)
                     episodes
                   /\ v = PyInt (-1)))).
Proof.
  intros Hserve Hjson Hitems.
  destruct (try_except_swallows
              (get_current_video_item_id_body serve self item_id season_id
                 episode_id)
              (PyInt (-1)) st) as [_ [Hret Hraise]].
  fold (get_current_video_item_id serve self item_id season_id episode_id)
    in Hret, Hraise.
  destruct (get_current_video_item_id_body serve self item_id season_id
              episode_id st) as [[e|v] st1] eqn:Hbody.
  - exists (PyInt (-1)). rewrite (Hraise e st1 eq_refl). cbn.
    split; [reflexivity|]. left; eauto.
  - exists v. rewrite (Hret v st1 eq_refl). cbn. split; [reflexivity|].
    right. split; [reflexivity|].
    unfold get_current_video_item_id_body, get, Eff.bind, Eff.requests_get
      in Hbody.
    rewrite Hserve in Hbody. unfold Eff.lift in Hbody. rewrite Hjson in Hbody.
    apply getitem_field in Hitems. rewrite Hitems in Hbody.
    unfold iterate, ok, Eff.ret in Hbody.
    now apply current_episode_loop_returns in Hbody.
Qed.

(** ** Chapter markers *)

(** A comprehension that does not raise collects the indices of the
    chapters with the marker, in order. *)
Lemma old_tags_of_returns (marker : string) (chapters : list value) :
  forall tags,
    old_tags_of marker chapters = inr tags ->
    Forall2 has_index (filter (has_marker marker) chapters) tags.
Proof.
  induction chapters as [|chapter rest IH]; intros tags H.
  - injection H as <-. constructor.
  - cbn [old_tags_of] in H. cbn [filter]. unfold has_marker at 1.
    destruct (getitem chapter (PyStr "MarkerType")) as [?|marker_type] eqn:Em;
      [discriminate|].
    apply getitem_field in Em. rewrite Em. cbn [Py.bind] in H.
    destruct marker_type; try discriminate. cbn [startswith Py.bind ok] in H.
    destruct (PyStr.startswith s marker).
    + destruct (getitem chapter (PyStr "Index")) as [?|index] eqn:Ei;
        [discriminate|].
      apply getitem_field in Ei. cbn [Py.bind] in H.
      destruct (old_tags_of marker rest) as [?|tags']; [discriminate|].
      injection H as <-. constructor; [assumption | now apply IH].
    + now apply IH.
Qed.

(** What the first part of both methods has sent when it ends, whether
    it raised or not: the request for the chapters, and then the remove
    request unless an exception came first. *)
Lemma remove_old_sends (self : helper) (item_id : value) (marker : string)
    (st : Eff.state World) :
  exists old_tags,
    (exists e, fst (remove_old serve self item_id marker st) = inl e)
    /\ Eff.sent (snd (remove_old serve self item_id marker st))
       = (Eff.sent st ++ [request_for self (get_chapters_url self item_id)])%list
    \/ Eff.sent (snd (remove_old serve self item_id marker st))
       = (Eff.sent st
            ++ [request_for self (get_chapters_url self item_id);
                request_for self (remove_url self item_id old_tags)])%list.
Proof.
  unfold remove_old, get, Eff.bind, Eff.requests_get, Eff.lift, Eff.ret.
  destruct (serve (request_for self (get_chapters_url self item_id))
              (Eff.world st)) as [[e|response] w];
    [exists []; left; cbn; eauto|].
  destruct (Eff.json response) as [e|chapter_info];
    [exists []; left; cbn; eauto|].
  destruct (getitem chapter_info (PyStr "chapters")) as [e|chapters];
    [exists []; left; cbn; eauto|].
  destruct (iterate chapters) as [e|items]; [exists []; left; cbn; eauto|].
  destruct (old_tags_of marker items) as [e|old_tags];
    [exists []; left; cbn; eauto|].
  exists old_tags. right. cbn [Eff.world Eff.sent].
  destruct (serve (request_for self (remove_url self item_id old_tags)) w)
    as [[e|r] w']; cbn; now rewrite <- app_assoc.
Qed.

(** Whatever the server answers and whether the run succeeds or not,
    the requests [update_intro] and [update_credits] send are the first
    ones, at least one, of the sequence of a successful run: no add
    request goes out before the remove request, and no remove request
    before the request for the chapters. *)
Theorem update_requests_in_order
    (self : helper) (item_id time : value) (st : Eff.state World) :
  (exists old_tags stamp n,
      (1 <= n)%nat
      /\ Eff.sent (snd (update_intro serve self item_id time st))
         = (Eff.sent st
              ++ firstn n
                   [request_for self (get_chapters_url self item_id);
                    request_for self (remove_url self item_id old_tags);
                    request_for self
                      (add_url self item_id "%E7%89%87%E5%A4%B4"
                         "intro_start" "00:00:00.000");
                    request_for self
                      (add_url self item_id
                         "%E7%89%87%E5%A4%B4%E7%BB%93%E6%9D%9F"
                         "intro_end" stamp)])%list)
  /\ (exists old_tags stamp n,
        (1 <= n)%nat
        /\ Eff.sent (snd (update_credits serve self item_id time st))
           = (Eff.sent st
                ++ firstn n
                     [request_for self (get_chapters_url self item_id);
                      request_for self (remove_url self item_id old_tags);
                      request_for self
                        (add_url self item_id "%E7%89%87%E5%B0%BE"
                           "credits_start" stamp)])%list).
Proof.
  split.
  - destruct (remove_old_sends self item_id "Intro" st)
      as [old_tags [[[e He] Hsent] | Hsent]];
      unfold update_intro, Eff.try_except, update_intro_body;
      unfold Eff.bind at 1;
      destruct (remove_old serve self item_id "Intro" st) as [[e'|u] st1];
      cbn [fst snd] in *; try discriminate He.
    + exists old_tags, EmptyString, 1%nat. split; [lia|].
      unfold Eff.bind, Eff.log, Eff.ret. cbn. exact Hsent.
    + exists old_tags, EmptyString, 2%nat. split; [lia|].
      unfold Eff.bind, Eff.log, Eff.ret. cbn. exact Hsent.
    + unfold get, Eff.bind, Eff.requests_get, Eff.lift, Eff.ret, Eff.log.
      destruct (serve _ (Eff.world st1)) as [[e|r] w1].
      { exists old_tags, EmptyString, 3%nat. split; [lia|]. cbn.
        rewrite Hsent. now rewrite <- app_assoc. }
      destruct (format_time time) as [e|stamp].
      { exists old_tags, EmptyString, 3%nat. split; [lia|]. cbn.
        rewrite Hsent. now rewrite <- app_assoc. }
      exists old_tags, stamp, 4%nat. split; [lia|]. cbn [Eff.world Eff.sent].
      match goal with
      | |- context [serve ?q ?w'] => destruct (serve q w') as [[e|r'] w2]
      end; cbn; rewrite Hsent; now rewrite <- !app_assoc.
  - destruct (remove_old_sends self item_id "Credits" st)
      as [old_tags [[[e He] Hsent] | Hsent]];
      unfold update_credits, Eff.try_except, update_credits_body;
      unfold Eff.bind at 1;
      destruct (remove_old serve self item_id "Credits" st) as [[e'|u] st1];
      cbn [fst snd] in *; try discriminate He.
    + exists old_tags, EmptyString, 1%nat. split; [lia|].
      unfold Eff.bind, Eff.log, Eff.ret. cbn. exact Hsent.
    + exists old_tags, EmptyString, 2%nat. split; [lia|].
      unfold Eff.bind, Eff.log, Eff.ret. cbn. exact Hsent.
    + unfold get, Eff.bind, Eff.requests_get, Eff.lift, Eff.ret, Eff.log.
      destruct (format_time time) as [e|stamp].
      { exists old_tags, EmptyString, 2%nat. split; [lia|]. cbn.
        exact Hsent. }
      exists old_tags, stamp, 3%nat. split; [lia|].
      match goal with
      | |- context [serve ?q ?w'] => destruct (serve q w') as [[e|r'] w2]
      end; cbn; rewrite Hsent; now rewrite <- !app_assoc.
Qed.

(** ** Total time *)

(** C4.  When the server answers the playback request with an object
    [info]: if ['MediaSources'] is a list with a first source, and the
    ['RunTimeTicks'] of that source divided by [10000000] is [seconds],
    then [get_total_time] returns [seconds]; if ['MediaSources'] is the
    empty list, it returns [0]. *)
Theorem get_total_time_seconds
    (self : helper) (item_id : value)
    (st : Eff.state World) (response : Eff.response) (w : World)
    (info : value) :
  serve (playback_info_request self item_id) (Eff.world st)
    = (inr response, w) ->
  Eff.json response = inr info ->
  (forall source rest ticks seconds,
      field "MediaSources" info = Some (PyList (source :: rest)) ->
      field "RunTimeTicks" source = Some ticks ->
      truediv ticks (PyInt 10000000) = inr seconds ->
      fst (get_total_time serve self item_id st) = inr seconds)
  /\ (field "MediaSources" info = Some (PyList []) ->
      fst (get_total_time serve self item_id st) = inr (PyInt 0)).
Proof.
  intros Hserve Hjson.
  assert (Hrun : forall sources,
             field "MediaSources" info = Some sources ->
             get_total_time_body serve self item_id st =
             (if truthy sources then
                Eff.bind (Eff.lift (getitem sources (PyInt 0))) (fun video_info =>
                Eff.bind (Eff.lift (getitem video_info (PyStr "RunTimeTicks")))
                  (fun total_time_ticks =>
                Eff.bind (Eff.lift (truediv total_time_ticks (PyInt 10000000)))
                  (fun total_time_seconds => Eff.ret total_time_seconds)))
              else
                Eff.bind (Eff.log Eff.error_no_duration)
                  (fun _ => Eff.ret (PyInt 0)))
               {| Eff.world := w;
                  Eff.sent := Eff.sent st ++ [playback_info_request self item_id];
                  Eff.logged := Eff.logged st |}).
  { intros sources Hsources. apply getitem_field in Hsources.
    unfold get_total_time_body.
    unfold Eff.bind at 1, Eff.requests_get. rewrite Hserve.
    unfold Eff.bind at 1, Eff.lift at 1. rewrite Hjson.
    unfold Eff.bind at 1, Eff.lift at 1. now rewrite Hsources. }
  split.
  - intros source rest ticks seconds Hsources Hticks Hdiv.
    apply getitem_field in Hticks.
    unfold get_total_time, Eff.try_except. rewrite (Hrun _ Hsources).
    cbn [truthy]. unfold Eff.bind, Eff.lift, Eff.ret.
    cbn [getitem item index_in List.length]. cbn.
    now rewrite Hticks, Hdiv.
  - intros Hsources.
    unfold get_total_time, Eff.try_except. now rewrite (Hrun _ Hsources).
Qed.

(** A first media source without ['RunTimeTicks'] makes the body raise,
    so [get_total_time] returns [0]. *)
Lemma get_total_time_without_ticks
    (self : helper) (item_id : value)
    (st : Eff.state World) (response : Eff.response) (w : World)
    (info source : value) (rest : list value) :
  serve (playback_info_request self item_id) (Eff.world st)
    = (inr response, w) ->
  Eff.json response = inr info ->
  field "MediaSources" info = Some (PyList (source :: rest)) ->
  field "RunTimeTicks" source = None ->
  fst (get_total_time serve self item_id st) = inr (PyInt 0).
Proof.
  intros Hserve Hjson Hsources Hticks. apply getitem_field in Hsources.
  assert (Hraise : exists e, getitem source (PyStr "RunTimeTicks") = inl e).
  { destruct (getitem source (PyStr "RunTimeTicks")) as [e|x] eqn:E;
      [eauto|]. apply getitem_field in E. congruence. }
  destruct Hraise as [e He].
  unfold get_total_time, Eff.try_except, get_total_time_body.
  unfold Eff.bind at 1, Eff.requests_get. rewrite Hserve.
  unfold Eff.bind at 1, Eff.lift at 1. rewrite Hjson.
  unfold Eff.bind at 1, Eff.lift at 1. rewrite Hsources.
  cbn [truthy]. unfold Eff.bind, Eff.lift, Eff.ret, Eff.log.
  cbn [getitem]. rewrite item_first, He. reflexivity.
Qed.

End Requests.

(* ================================================================= *)
(** * Worked examples *)

(** C1, the claim as stated, fails for [get_total_time]: when the
    connection is refused the body raises, and the method returns [0],
    which is none of the empty list, [-1] and [None]. *)
Lemma get_total_time_failure_is_zero :
  fst (EmbySkipHelper.get_total_time_body (R := Script.plain) Script.serve
         Script.emby (Py.PyInt 1847) (Script.start []))
    = inl Py.RequestException
  /\ fst (EmbySkipHelper.get_total_time (R := Script.plain) Script.serve
            Script.emby (Py.PyInt 1847) (Script.start []))
     = inr (Py.PyInt 0)
  /\ ~ listed_sentinel (Py.PyInt 0).
Proof.
  split; [reflexivity|]. split; [reflexivity|].
  intros [H | [H | H]]; discriminate.
Qed.

Lemma methods_swallow_failures_witness :
  fst (EmbySkipHelper.get_next_episode_ids (R := Script.plain) Script.serve
         Script.emby (Py.PyInt 5842) (Py.PyInt 2) (Py.PyInt 2) (Script.start []))
  = inr (Py.PyList []).
Proof.
  destruct (methods_swallow_failures (R := Script.plain) Script.serve
              Script.emby (Py.PyInt 5842) (Py.PyInt 2) (Py.PyInt 2) Py.PyNone)
    as [H _].
  destruct (H (Script.start [])) as [_ [_ Hfail]].
  erewrite Hfail; reflexivity.
Defined.

Lemma get_next_episode_ids_selected_witness :
  fst (EmbySkipHelper.get_next_episode_ids (R := Script.plain) Script.serve
         Script.emby (Py.PyInt 5842) (Py.PyInt 1) (Py.PyInt 2)
         (Script.start [Script.answer Script.listing]))
  = inr (Py.PyList [Py.PyStr "102"; Py.PyStr "103"]).
Proof.
  destruct (get_next_episode_ids_selected (R := Script.plain) Script.serve
              Script.emby (Py.PyInt 5842) (Py.PyInt 1) (Py.PyInt 2)
              (Script.start [Script.answer Script.listing])
              {| Eff.json := inr Script.listing |} [] Script.listing
              Script.episodes eq_refl eq_refl eq_refl)
    as [ids [Hret [[[[e He] _] | [Hbody _]] _]]].
  - vm_compute in He. discriminate He.
  - vm_compute in Hbody. injection Hbody as <-. exact Hret.
Defined.

Lemma get_current_video_item_id_first_witness :
  fst (EmbySkipHelper.get_current_video_item_id (R := Script.plain) Script.serve
         Script.emby (Py.PyInt 5842) (Py.PyInt 2) (Py.PyInt 2)
         (Script.start [Script.answer Script.listing]))
  = inr (Py.PyStr "202").
Proof.
  destruct (get_current_video_item_id_first (R := Script.plain) Script.serve
              Script.emby (Py.PyInt 5842) (Py.PyInt 2) (Py.PyInt 2)
              (Script.start [Script.answer Script.listing])
              {| Eff.json := inr Script.listing |} [] Script.listing
              Script.episodes eq_refl eq_refl eq_refl)
    as [v [Hret [[[e He] _] | [Hbody _]]]].
  - vm_compute in He. discriminate He.
  - vm_compute in Hbody. injection Hbody as <-. exact Hret.
Defined.

Lemma get_total_time_seconds_witness :
  fst (EmbySkipHelper.get_total_time (R := Script.plain) Script.serve
         Script.emby (Py.PyInt 1847)
         (Script.start [Script.answer Script.playback_info]))
  = inr (Py.PyFloat (S754_finite false 5429687001775332 (-42))).
Proof.
  destruct (get_total_time_seconds (R := Script.plain) Script.serve
              Script.emby (Py.PyInt 1847)
              (Script.start [Script.answer Script.playback_info])
              {| Eff.json := inr Script.playback_info |} []
              Script.playback_info eq_refl eq_refl) as [Hticks _].
  apply (Hticks (Py.PyDict [("RunTimeTicks", Py.PyInt 12345678901)]) []
           (Py.PyInt 12345678901)); reflexivity.
Defined.

Lemma get_total_time_without_ticks_witness :
  fst (EmbySkipHelper.get_total_time (R := Script.plain) Script.serve
         Script.emby (Py.PyInt 1847)
         (Script.start [Script.answer Script.unprobed_info]))
  = inr (Py.PyInt 0).
Proof.
  apply (get_total_time_without_ticks (R := Script.plain) Script.serve
           Script.emby (Py.PyInt 1847)
           (Script.start [Script.answer Script.unprobed_info])
           {| Eff.json := inr Script.unprobed_info |} []
           Script.unprobed_info (Py.PyDict [("Name", Py.PyStr "strm")]) []);
    reflexivity.
Defined.

(** C8 fails at [86400] seconds: the timestamp starts with the count of
    days, so it is not of the form [H:MM:SS.mmm]. *)
Lemma format_time_one_day :
  EmbySkipHelper.format_time (Py.PyInt 86400) = inr "1 day, 0:00:00.000".
Proof. reflexivity. Qed.

Lemma format_time_within_a_day_witness :
  EmbySkipHelper.format_time (Py.PyInt 95) = inr "0:01:35.000"
  /\ EmbySkipHelper.format_time (Py.PyInt 86399) = inr "23:59:59.000".
Proof.
  destruct format_time_within_a_day as [Hmicros Hint]. split.
  - apply (Hmicros (Py.PyInt 95) 95000000);
      [reflexivity | unfold Datetime.day_us; lia].
  - apply (Hint 86399); lia.
Defined.

(* ================================================================= *)
(** * Configuration of the instance *)

Lemma endswith_iff (s p : string) :
  PyStr.endswith s p = true <-> is_suffix p s.
Proof.
  unfold is_suffix. induction s as [|c s IH]; cbn [PyStr.endswith].
  - rewrite orb_false_r, String.eqb_eq. split.
    + intros <-. now exists EmptyString.
    + intros [[|? ?] H]; [exact H | discriminate].
  - rewrite orb_true_iff, String.eqb_eq, IH. split.
    + intros [<- | [t ->]]; [now exists EmptyString | now exists (String c t)].
    + intros [[|d t] H]; [now left | right].
      injection H as _ ->. now exists t.
Qed.

Lemma is_suffix_append (p a b : string) : is_suffix p b -> is_suffix p (a ++ b).
Proof. intros [t ->]. exists (a ++ t). now rewrite append_assoc. Qed.

Lemma truthy_opt_resolved (argument setting : option string) :
  (if EmbySkipHelper.truthy_opt argument then argument else setting)
  = resolved argument setting.
Proof. now destruct argument as [[|? ?]|]. Qed.

(** The base URL [set_emby_server] makes of a host. *)
Lemma normalised_host (h : string) :
  let u := if PyStr.endswith h "/" then h else h ++ "/" in
  let url := if PyStr.startswith u "http" then u else "http://" ++ u in
  is_prefix "http" url /\ is_suffix "/" url /\ substring h url
  /\ PyStr.endswith url "/" = true /\ PyStr.startswith url "http" = true.
Proof.
  cbv zeta.
  assert (Hu : is_suffix "/" (if PyStr.endswith h "/" then h else h ++ "/")
               /\ substring h (if PyStr.endswith h "/" then h else h ++ "/")).
  { destruct (PyStr.endswith h "/") eqn:E.
    - split; [now apply endswith_iff|].
      exists EmptyString, EmptyString. now rewrite append_empty_r.
    - split; [now exists h | now exists EmptyString, "/"]. }
  destruct Hu as [Hs [a [b Hh]]].
  set (u := if PyStr.endswith h "/" then h else h ++ "/") in *.
  destruct (PyStr.startswith u "http") eqn:E.
  - repeat split; [now apply startswith_iff | assumption | now exists a, b
                   | now apply endswith_iff | assumption].
  - repeat split.
    + now exists ("://" ++ u).
    + now apply is_suffix_append.
    + exists ("http://" ++ a), b. rewrite Hh. now rewrite append_assoc.
    + apply endswith_iff. now apply is_suffix_append.
Qed.

(** After [set_emby_server]: when no host is resolved (the argument is
    falsy and the setting is [None]), [base_url] is [None], the error is
    logged, [api_key] is overwritten and [headers] are left as they were;
    otherwise nothing is logged and [base_url] is a string that begins
    with [http], ends with a slash and contains the resolved host. *)
Theorem set_emby_server_base_url (cfg : EmbySkipHelper.settings)
    (self : EmbySkipHelper.helper) (host api_key : option string) :
  match resolved host (EmbySkipHelper.EMBY_HOST cfg) with
  | None =>
      EmbySkipHelper.set_emby_server cfg self host api_key
      = ({| EmbySkipHelper.base_url := None;
            EmbySkipHelper.api_key :=
              resolved api_key (EmbySkipHelper.EMBY_API_KEY cfg);
            EmbySkipHelper.headers := EmbySkipHelper.headers self |},
         [EmbySkipHelper.error_no_host])
  | Some h =>
      exists url,
        EmbySkipHelper.base_url
          (fst (EmbySkipHelper.set_emby_server cfg self host api_key))
        = Some url
        /\ is_prefix "http" url /\ is_suffix "/" url /\ substring h url
        /\ snd (EmbySkipHelper.set_emby_server cfg self host api_key) = []
  end.
Proof.
  unfold EmbySkipHelper.set_emby_server. rewrite !truthy_opt_resolved.
  destruct (resolved host (EmbySkipHelper.EMBY_HOST cfg)) as [h|];
    [|reflexivity].
  destruct (normalised_host h) as [Hp [Hs [Hh _]]]. cbv zeta in Hp, Hs, Hh.
  eexists. cbn [fst snd EmbySkipHelper.base_url]. repeat split; eassumption.
Qed.

(** After [set_emby_server] with a resolved host, the token is in
    [headers] exactly when the resolved api key is truthy, and then
    [get_total_time] sends the key twice: as the [X-Emby-Token] header and
    as the [api_key] parameter of the query.  With a falsy key it sends
    neither. *)
Theorem set_emby_server_token {R : Py.Repr} (cfg : EmbySkipHelper.settings)
    (self : EmbySkipHelper.helper) (host api_key : option string)
    (h : string) (item_id : Py.value) :
  resolved host (EmbySkipHelper.EMBY_HOST cfg) = Some h ->
  let self' := fst (EmbySkipHelper.set_emby_server cfg self host api_key) in
  let request := EmbySkipHelper.playback_info_request self' item_id in
  match resolved api_key (EmbySkipHelper.EMBY_API_KEY cfg) with
  | Some (String c key) =>
      EmbySkipHelper.headers self' = [("X-Emby-Token", String c key)]
      /\ Eff.headers request = [("X-Emby-Token", String c key)]
      /\ Eff.params request = [("api_key", String c key)]
  | _ =>
      EmbySkipHelper.headers self' = []
      /\ Eff.headers request = [] /\ Eff.params request = []
  end.
Proof.
  intros Hh. cbv zeta.
  unfold EmbySkipHelper.set_emby_server. rewrite !truthy_opt_resolved, Hh.
  unfold EmbySkipHelper.playback_info_request.
  cbn [fst EmbySkipHelper.headers EmbySkipHelper.api_key].
  now destruct (resolved api_key (EmbySkipHelper.EMBY_API_KEY cfg))
    as [[|c key]|].
Qed.

Lemma resolved_again (argument setting : option string) :
  resolved (resolved argument setting) setting = resolved argument setting.
Proof.
  destruct argument as [[|? ?]|]; cbn [resolved]; try reflexivity;
    now destruct setting as [[|? ?]|].
Qed.

(** Configuring an instance again with its own [base_url] and [api_key]
    changes nothing: a base URL that [set_emby_server] produced is kept as
    it is, and so are the key and the headers. *)
Theorem set_emby_server_again (cfg : EmbySkipHelper.settings)
    (self : EmbySkipHelper.helper) (host api_key : option string)
    (h : string) :
  resolved host (EmbySkipHelper.EMBY_HOST cfg) = Some h ->
  let self' := fst (EmbySkipHelper.set_emby_server cfg self host api_key) in
  EmbySkipHelper.set_emby_server cfg self'
    (EmbySkipHelper.base_url self') (EmbySkipHelper.api_key self')
  = (self', []).
Proof.
  intros Hh. cbv zeta.
  remember (fst (EmbySkipHelper.set_emby_server cfg self host api_key))
    as self' eqn:Es.
  unfold EmbySkipHelper.set_emby_server in Es.
  rewrite !truthy_opt_resolved, Hh in Es. cbn [fst] in Es.
  destruct (normalised_host h) as [_ [[t Ht] [_ [He Hs]]]].
  cbv zeta in Ht, He, Hs.
  set (url := if PyStr.startswith (if PyStr.endswith h "/" then h else h ++ "/")
                   "http"
              then if PyStr.endswith h "/" then h else h ++ "/"
              else "http://" ++ (if PyStr.endswith h "/" then h else h ++ "/"))
    in *.
  assert (Hurl : resolved (Some url) (EmbySkipHelper.EMBY_HOST cfg) = Some url).
  { destruct url as [|c u]; [|reflexivity].
    destruct t; discriminate Ht. }
  subst self'. unfold EmbySkipHelper.set_emby_server.
  cbn [EmbySkipHelper.base_url EmbySkipHelper.api_key].
  rewrite !truthy_opt_resolved, Hurl, resolved_again, He, Hs. reflexivity.
Qed.

(** An instance built by the constructor carries no token but its own
    key: [headers] is empty or holds [api_key] as [X-Emby-Token]; it is
    empty when no base URL was set.  Without a truthy argument the
    constructor does not read the settings, and the instance has no base
    URL whatever they hold. *)
Theorem init_token (cfg : EmbySkipHelper.settings)
    (host api_key : option string) :
  let self := fst (EmbySkipHelper.__init__ cfg host api_key) in
  (EmbySkipHelper.headers self = []
   \/ exists c key,
        EmbySkipHelper.api_key self = Some (String c key)
        /\ EmbySkipHelper.headers self = [("X-Emby-Token", String c key)])
  /\ (EmbySkipHelper.base_url self = None -> EmbySkipHelper.headers self = [])
  /\ (EmbySkipHelper.truthy_opt host = false ->
      EmbySkipHelper.truthy_opt api_key = false ->
      EmbySkipHelper.base_url self = None
      /\ EmbySkipHelper.api_key self = None).
Proof.
  cbv zeta. unfold EmbySkipHelper.__init__.
  destruct (EmbySkipHelper.truthy_opt host || EmbySkipHelper.truthy_opt api_key)
    eqn:Hany.
  - unfold EmbySkipHelper.set_emby_server. rewrite !truthy_opt_resolved.
    destruct (resolved host (EmbySkipHelper.EMBY_HOST cfg)) as [h|].
    + cbn [fst EmbySkipHelper.headers EmbySkipHelper.api_key
             EmbySkipHelper.base_url].
      split; [|split; [discriminate|]].
      * destruct (resolved api_key (EmbySkipHelper.EMBY_API_KEY cfg))
          as [[|c key]|]; cbn; eauto.
      * intros Hh Hk. rewrite Hh, Hk in Hany. discriminate Hany.
    + cbn [fst EmbySkipHelper.headers EmbySkipHelper.api_key
             EmbySkipHelper.base_url].
      split; [now left|]. split; [reflexivity|].
      intros Hh Hk. rewrite Hh, Hk in Hany. discriminate Hany.
  - cbn. split; [now left|]. now repeat split.
Qed.

(* ================================================================= *)
(** * The requests a method sends *)

Section Traces.
Import Py EmbySkipHelper.
Context {R : Repr} {World : Type}.
Variable serve : Eff.request -> World -> result Eff.response * World.

Lemma sends_only_ret {A : Type} (P : Eff.request -> Prop) (a : A) :
  sends_only P (Eff.ret (World := World) a).
Proof. intros st. exists []. cbn. now rewrite app_nil_r. Qed.

Lemma sends_only_lift {A : Type} (P : Eff.request -> Prop) (r : result A) :
  sends_only P (Eff.lift (World := World) r).
Proof. intros st. exists []. cbn. now rewrite app_nil_r. Qed.

Lemma sends_only_log (P : Eff.request -> Prop) (l : Eff.log_record) :
  sends_only P (Eff.log (World := World) l).
Proof. intros st. exists []. cbn. now rewrite app_nil_r. Qed.

Lemma sends_only_get (P : Eff.request -> Prop) (r : Eff.request) :
  P r -> sends_only P (Eff.requests_get serve r).
Proof.
  intros Hr st. exists [r]. unfold Eff.requests_get.
  destruct (serve r (Eff.world st)) as [answer w]. cbn. now split; [|constructor].
Qed.

Lemma sends_only_bind {A B : Type} (P : Eff.request -> Prop)
    (c : Eff.M World A) (k : A -> Eff.M World B) :
  sends_only P c -> (forall a, sends_only P (k a)) ->
  sends_only P (Eff.bind c k).
Proof.
  intros Hc Hk st. destruct (Hc st) as [t1 [E1 F1]]. unfold Eff.bind.
  destruct (c st) as [[e|a] st1]; cbn [snd] in *; [now exists t1|].
  destruct (Hk a st1) as [t2 [E2 F2]]. exists (t1 ++ t2)%list.
  rewrite E2, E1, app_assoc. split; [reflexivity | now apply Forall_app].
Qed.

Lemma sends_only_try {A : Type} (P : Eff.request -> Prop)
    (body : Eff.M World A) (handler : exn -> Eff.M World A) :
  sends_only P body -> (forall e, sends_only P (handler e)) ->
  sends_only P (Eff.try_except body handler).
Proof.
  intros Hb Hh st. destruct (Hb st) as [t1 [E1 F1]]. unfold Eff.try_except.
  destruct (body st) as [[e|a] st1]; cbn [snd] in *; [|now exists t1].
  destruct (Hh e st1) as [t2 [E2 F2]]. exists (t1 ++ t2)%list.
  rewrite E2, E1, app_assoc. split; [reflexivity | now apply Forall_app].
Qed.

(** Steps through a computation built from the operations above. *)
Ltac sends :=
  repeat first
    [ apply sends_only_ret | apply sends_only_lift | apply sends_only_log
    | apply sends_only_bind; [|intros ?]
    | apply sends_only_try; [|intros ?]
    | match goal with
      | |- sends_only _ (if ?b then _ else _) => destruct b
      end ].

Lemma next_episode_loop_sends (P : Eff.request -> Prop)
    (season_id episode_id : value) (episodes : list value) :
  forall idx ids,
    sends_only P
      (next_episode_loop (World := World) season_id episode_id episodes idx ids).
Proof.
  induction episodes as [|episode rest IH]; intros idx ids;
    cbn [next_episode_loop]; sends; apply IH.
Qed.

Lemma current_episode_loop_sends (P : Eff.request -> Prop)
    (season_id episode_id : value) (episodes : list value) :
  sends_only P
    (current_episode_loop (World := World) season_id episode_id episodes).
Proof.
  induction episodes as [|episode rest IH];
    cbn [current_episode_loop]; sends; apply IH.
Qed.

Lemma playback_info_request_of (self : helper) (item_id : value) :
  request_of self (playback_info_request self item_id).
Proof.
  unfold playback_info_request. split; cbn.
  - now destruct (headers self).
  - now eexists.
Qed.

Lemma get_sends (self : helper) (url : string) :
  is_prefix (str_opt (base_url self)) url ->
  sends_only (request_of self) (get serve self url).
Proof. intros H. apply sends_only_get. now split. Qed.

(** The URL of a request begins with the base URL. *)
Ltac base_url_first :=
  unfold episodes_url, get_chapters_url, remove_url, add_url, chapter_api;
  rewrite ?append_assoc; now eexists.

Lemma remove_old_sends_only (self : helper) (item_id : value) (marker : string) :
  sends_only (request_of self) (remove_old serve self item_id marker).
Proof.
  unfold remove_old. sends; apply get_sends; base_url_first.
Qed.

(** Every request that a method sends, in any run, carries the headers
    of the instance and goes to a URL that begins with its base URL (with
    [None] when no base URL is set). *)
Theorem requests_of_the_instance
    (self : helper) (item_id season_id episode_id time : value) :
  sends_only (request_of self)
    (get_next_episode_ids serve self item_id season_id episode_id)
  /\ sends_only (request_of self)
       (get_current_video_item_id serve self item_id season_id episode_id)
  /\ sends_only (request_of self) (update_intro serve self item_id time)
  /\ sends_only (request_of self) (update_credits serve self item_id time)
  /\ sends_only (request_of self) (get_total_time serve self item_id).
Proof.
  repeat split.
  - unfold get_next_episode_ids, get_next_episode_ids_body.
    sends; [apply get_sends; base_url_first | apply next_episode_loop_sends].
  - unfold get_current_video_item_id, get_current_video_item_id_body.
    sends; [apply get_sends; base_url_first | apply current_episode_loop_sends].
  - unfold update_intro, update_intro_body.
    sends; try apply remove_old_sends_only; apply get_sends; base_url_first.
  - unfold update_credits, update_credits_body.
    sends; try apply remove_old_sends_only; apply get_sends; base_url_first.
  - unfold get_total_time, get_total_time_body.
    sends; apply sends_only_get, playback_info_request_of.
Qed.

Lemma sends_nothing {A : Type} (c : Eff.M World A) :
  sends_only (fun _ => False) c -> sends_exactly [] c.
Proof.
  intros H st. destruct (H st) as [[|r trace] [E F]]; [exact E|].
  inversion F as [|? ? Hr _]. contradiction.
Qed.

Lemma sends_exactly_get_then {B : Type} (r : Eff.request)
    (k : Eff.response -> Eff.M World B) :
  (forall a, sends_only (fun _ => False) (k a)) ->
  sends_exactly [r] (Eff.bind (Eff.requests_get serve r) k).
Proof.
  intros Hk st. unfold Eff.bind, Eff.requests_get.
  destruct (serve r (Eff.world st)) as [[e|a] w]; [reflexivity|].
  rewrite (sends_nothing _ (Hk a)). cbn. now rewrite app_nil_r.
Qed.

Lemma sends_exactly_try {A : Type} (trace : list Eff.request)
    (body : Eff.M World A) (handler : exn -> Eff.M World A) :
  sends_exactly trace body ->
  (forall e, sends_only (fun _ => False) (handler e)) ->
  sends_exactly trace (Eff.try_except body handler).
Proof.
  intros Hb Hh st. specialize (Hb st). unfold Eff.try_except.
  destruct (body st) as [[e|a] st1]; cbn [snd] in *; [|exact Hb].
  rewrite (sends_nothing _ (Hh e)), Hb. now rewrite app_nil_r.
Qed.

(** The three methods that only read send one request in every run,
    whether it ends well or not: the request for the episodes of the
    show, or the request for the playback information of the item.  They
    never send an update. *)
Theorem lookups_send_one_request
    (self : helper) (item_id season_id episode_id : value) :
  sends_exactly [request_for self (episodes_url self item_id)]
    (get_next_episode_ids serve self item_id season_id episode_id)
  /\ sends_exactly [request_for self (episodes_url self item_id)]
       (get_current_video_item_id serve self item_id season_id episode_id)
  /\ sends_exactly [playback_info_request self item_id]
       (get_total_time serve self item_id).
Proof.
  repeat split.
  - unfold get_next_episode_ids, get_next_episode_ids_body, get.
    apply sends_exactly_try; [apply sends_exactly_get_then; intros ?|intros ?];
      sends. apply next_episode_loop_sends.
  - unfold get_current_video_item_id, get_current_video_item_id_body, get.
    apply sends_exactly_try; [apply sends_exactly_get_then; intros ?|intros ?];
      sends. apply current_episode_loop_sends.
  - unfold get_total_time, get_total_time_body.
    apply sends_exactly_try; [apply sends_exactly_get_then; intros ?|intros ?];
      sends.
Qed.

End Traces.

(* ================================================================= *)
(** * Updates on a server that answers *)

Section Updates.
Import Py EmbySkipHelper.
Context {R : Repr} {World : Type}.
Variable serve : Eff.request -> World -> result Eff.response * World.

Lemma old_tags_of_readable (marker : string) (chapters : list value) :
  Forall readable_chapter chapters ->
  exists old_tags, old_tags_of marker chapters = inr old_tags.
Proof.
  induction 1 as [|chapter rest [s [index [Hm Hi]]] _ [tags IH]];
    [now exists []|].
  apply getitem_field in Hm, Hi. cbn [old_tags_of].
  rewrite Hm. cbn [Py.bind startswith ok]. rewrite Hi, IH. cbn [Py.bind].
  destruct (PyStr.startswith s marker); eauto.
Qed.

(** The run of [requests.get] on a server that answers. *)
Lemma get_answered (self : helper) (url : string) (st : Eff.state World) :
  answers_all serve ->
  exists response w,
    get serve self url st
    = (inr response,
       {| Eff.world := w;
          Eff.sent := (Eff.sent st ++ [request_for self url])%list;
          Eff.logged := Eff.logged st |}).
Proof.
  intros Hall. unfold get, Eff.requests_get.
  destruct (Hall (request_for self url) (Eff.world st)) as [response E].
  destruct (serve (request_for self url) (Eff.world st)) as [answer w].
  cbn in E. subst answer. now exists response, w.
Qed.

(** The first part of both methods on a server that answers, the
    chapters being readable: it returns, having sent the request for the
    chapters and the remove request. *)
Lemma remove_old_answered (self : helper) (item_id : value) (marker : string)
    (st : Eff.state World) (response : Eff.response) (w : World)
    (info : value) (chapters : list value) :
  answers_all serve ->
  serve (request_for self (get_chapters_url self item_id)) (Eff.world st)
    = (inr response, w) ->
  Eff.json response = inr info ->
  field "chapters" info = Some (PyList chapters) ->
  Forall readable_chapter chapters ->
  exists old_tags w1,
    Forall2 has_index (filter (has_marker marker) chapters) old_tags
    /\ remove_old serve self item_id marker st
       = (inr tt,
          {| Eff.world := w1;
             Eff.sent :=
               (Eff.sent st
                  ++ [request_for self (get_chapters_url self item_id);
                      request_for self (remove_url self item_id old_tags)])%list;
             Eff.logged := Eff.logged st |}).
Proof.
  intros Hall Hserve Hjson Hchapters Hread.
  apply getitem_field in Hchapters.
  destruct (old_tags_of_readable marker chapters Hread) as [old_tags Htags].
  unfold remove_old. unfold get at 1, Eff.bind at 1, Eff.requests_get.
  rewrite Hserve. unfold Eff.bind at 1, Eff.lift at 1. rewrite Hjson.
  unfold Eff.bind at 1, Eff.lift at 1. rewrite Hchapters.
  unfold Eff.bind at 1, Eff.lift at 1, iterate, ok.
  unfold Eff.bind at 1, Eff.lift at 1. rewrite Htags.
  unfold Eff.bind, Eff.ret.
  match goal with
  | |- context [get serve self ?u ?s] =>
      destruct (get_answered self u s Hall) as [r1 [w1 E1]]; rewrite E1
  end.
  exists old_tags, w1. split; [now apply old_tags_of_returns|].
  cbn [Eff.sent Eff.logged]. now rewrite <- app_assoc.
Qed.

(** When [format_time] rejects the time (it is [None], a string, NaN,
    or past the range of [datetime]) and the server answers every
    request, the chapters being readable: [update_intro] has removed the
    old intro markers and added the intro start, but not the intro end,
    and [update_credits] has removed the old credits markers and added
    none.  Both return [None]. *)
Theorem update_stops_at_bad_time
    (self : helper) (item_id time : value)
    (st : Eff.state World) (response : Eff.response) (w : World)
    (info : value) (chapters : list value) (e : exn) :
  answers_all serve ->
  serve (request_for self (get_chapters_url self item_id)) (Eff.world st)
    = (inr response, w) ->
  Eff.json response = inr info ->
  field "chapters" info = Some (PyList chapters) ->
  Forall readable_chapter chapters ->
  format_time time = inl e ->
  exists old_intro old_credits,
    Forall2 has_index (filter (has_marker "Intro") chapters) old_intro
    /\ fst (update_intro serve self item_id time st) = inr PyNone
    /\ Eff.sent (snd (update_intro serve self item_id time st))
       = (Eff.sent st
            ++ [request_for self (get_chapters_url self item_id);
                request_for self (remove_url self item_id old_intro);
                request_for self
                  (add_url self item_id "%E7%89%87%E5%A4%B4"
                     "intro_start" "00:00:00.000")])%list
    /\ Forall2 has_index (filter (has_marker "Credits") chapters) old_credits
    /\ fst (update_credits serve self item_id time st) = inr PyNone
    /\ Eff.sent (snd (update_credits serve self item_id time st))
       = (Eff.sent st
            ++ [request_for self (get_chapters_url self item_id);
                request_for self (remove_url self item_id old_credits)])%list.
Proof.
  intros Hall Hserve Hjson Hchapters Hread Htime.
  destruct (remove_old_answered self item_id "Intro" st response w info
              chapters Hall Hserve Hjson Hchapters Hread)
    as [old_intro [w1 [Hintro Ei]]].
  destruct (remove_old_answered self item_id "Credits" st response w info
              chapters Hall Hserve Hjson Hchapters Hread)
    as [old_credits [w2 [Hcredits Ec]]].
  exists old_intro, old_credits. split; [exact Hintro|].
  assert (Hi : exists w3,
             update_intro serve self item_id time st
             = (inr PyNone,
                {| Eff.world := w3;
                   Eff.sent :=
                     (Eff.sent st
                        ++ [request_for self (get_chapters_url self item_id);
                            request_for self (remove_url self item_id old_intro);
                            request_for self
                              (add_url self item_id "%E7%89%87%E5%A4%B4"
                                 "intro_start" "00:00:00.000")])%list;
                   Eff.logged :=
                     (Eff.logged st ++ [Eff.error_exception e])%list |})).
  { unfold update_intro, Eff.try_except, update_intro_body.
    unfold Eff.bind at 1. rewrite Ei. unfold Eff.bind at 1.
    match goal with
    | |- context [get serve self ?u ?s] =>
        destruct (get_answered self u s Hall) as [r1 [w3 E1]]; rewrite E1
    end.
    exists w3. unfold Eff.bind at 1, Eff.lift at 1. rewrite Htime.
    unfold Eff.bind, Eff.log, Eff.ret. cbn. now rewrite <- app_assoc. }
  destruct Hi as [w3 Hi].
  assert (Hc : update_credits serve self item_id time st
               = (inr PyNone,
                  {| Eff.world := w2;
                     Eff.sent :=
                       (Eff.sent st
                          ++ [request_for self (get_chapters_url self item_id);
                              request_for self
                                (remove_url self item_id old_credits)])%list;
                     Eff.logged := (Eff.logged st ++ [Eff.error_exception e])%list |})).
  { unfold update_credits, Eff.try_except, update_credits_body.
    unfold Eff.bind at 1. rewrite Ec.
    unfold Eff.bind at 1, Eff.lift at 1. rewrite Htime.
    unfold Eff.bind, Eff.log, Eff.ret. reflexivity. }
  rewrite Hi, Hc. cbn [fst snd Eff.sent]. now repeat split.
Qed.

(** When [format_time] accepts the time and the server answers every
    request, the chapters being readable, both methods succeed: they
    return the time, nothing is logged, and the old markers are replaced
    by the new ones. *)
Theorem update_succeeds
    (self : helper) (item_id time : value)
    (st : Eff.state World) (response : Eff.response) (w : World)
    (info : value) (chapters : list value) (stamp : string) :
  answers_all serve ->
  serve (request_for self (get_chapters_url self item_id)) (Eff.world st)
    = (inr response, w) ->
  Eff.json response = inr info ->
  field "chapters" info = Some (PyList chapters) ->
  Forall readable_chapter chapters ->
  format_time time = inr stamp ->
  exists old_intro old_credits,
    Forall2 has_index (filter (has_marker "Intro") chapters) old_intro
    /\ fst (update_intro serve self item_id time st) = inr time
    /\ Eff.logged (snd (update_intro serve self item_id time st))
       = Eff.logged st
    /\ Eff.sent (snd (update_intro serve self item_id time st))
       = (Eff.sent st
            ++ [request_for self (get_chapters_url self item_id);
                request_for self (remove_url self item_id old_intro);
                request_for self
                  (add_url self item_id "%E7%89%87%E5%A4%B4"
                     "intro_start" "00:00:00.000");
                request_for self
                  (add_url self item_id
                     "%E7%89%87%E5%A4%B4%E7%BB%93%E6%9D%9F"
                     "intro_end" stamp)])%list
    /\ Forall2 has_index (filter (has_marker "Credits") chapters) old_credits
    /\ fst (update_credits serve self item_id time st) = inr time
    /\ Eff.logged (snd (update_credits serve self item_id time st))
       = Eff.logged st
    /\ Eff.sent (snd (update_credits serve self item_id time st))
       = (Eff.sent st
            ++ [request_for self (get_chapters_url self item_id);
                request_for self (remove_url self item_id old_credits);
                request_for self
                  (add_url self item_id "%E7%89%87%E5%B0%BE"
                     "credits_start" stamp)])%list.
Proof.
  intros Hall Hserve Hjson Hchapters Hread Htime.
  destruct (remove_old_answered self item_id "Intro" st response w info
              chapters Hall Hserve Hjson Hchapters Hread)
    as [old_intro [w1 [Hintro Ei]]].
  destruct (remove_old_answered self item_id "Credits" st response w info
              chapters Hall Hserve Hjson Hchapters Hread)
    as [old_credits [w2 [Hcredits Ec]]].
  exists old_intro, old_credits. split; [exact Hintro|].
  assert (Hi : exists w3,
             update_intro serve self item_id time st
             = (inr time,
                {| Eff.world := w3;
                   Eff.sent :=
                     (Eff.sent st
                        ++ [request_for self (get_chapters_url self item_id);
                            request_for self (remove_url self item_id old_intro);
                            request_for self
                              (add_url self item_id "%E7%89%87%E5%A4%B4"
                                 "intro_start" "00:00:00.000");
                            request_for self
                              (add_url self item_id
                                 "%E7%89%87%E5%A4%B4%E7%BB%93%E6%9D%9F"
                                 "intro_end" stamp)])%list;
                   Eff.logged := Eff.logged st |})).
  { unfold update_intro, Eff.try_except, update_intro_body.
    unfold Eff.bind at 1. rewrite Ei. unfold Eff.bind at 1.
    match goal with
    | |- context [get serve self ?u ?s] =>
        destruct (get_answered self u s Hall) as [r1 [w3 E1]]; rewrite E1
    end.
    unfold Eff.bind at 1, Eff.lift at 1. rewrite Htime. unfold Eff.bind at 1.
    match goal with
    | |- context [get serve self ?u ?s] =>
        destruct (get_answered self u s Hall) as [r2 [w4 E2]]; rewrite E2
    end.
    exists w4. unfold Eff.ret. cbn. now rewrite <- !app_assoc. }
  destruct Hi as [w3 Hi].
  assert (Hc : exists w4,
             update_credits serve self item_id time st
             = (inr time,
                {| Eff.world := w4;
                   Eff.sent :=
                     (Eff.sent st
                        ++ [request_for self (get_chapters_url self item_id);
                            request_for self (remove_url self item_id old_credits);
                            request_for self
                              (add_url self item_id "%E7%89%87%E5%B0%BE"
                                 "credits_start" stamp)])%list;
                   Eff.logged := Eff.logged st |})).
  { unfold update_credits, Eff.try_except, update_credits_body.
    unfold Eff.bind at 1. rewrite Ec.
    unfold Eff.bind at 1, Eff.lift at 1. rewrite Htime. unfold Eff.bind at 1.
    match goal with
    | |- context [get serve self ?u ?s] =>
        destruct (get_answered self u s Hall) as [r2 [w4 E2]]; rewrite E2
    end.
    exists w4. unfold Eff.ret. cbn. now rewrite <- !app_assoc. }
  destruct Hc as [w4 Hc].
  rewrite Hi, Hc. cbn [fst snd Eff.sent Eff.logged]. now repeat split.
Qed.

(** C5.  For every [item_id] and every [time], on a server that answers
    every request, the chapters being readable.  [update_intro] sends, in
    this order: the request for the chapters; one remove request, for
    exactly the ['Index'] of the chapters whose ['MarkerType'] starts
    with ['Intro']; the add request of the intro start, whose time is the
    literal [00:00:00.000] and no result of [format_time]; and then, only
    when [format_time] accepts [time], the add request of the intro end
    at [format_time(time)].  [update_credits] sends the request for the
    chapters, one remove request for exactly the ['Index'] of the
    chapters whose ['MarkerType'] starts with ['Credits'], and then, only
    when [format_time] accepts [time], the add request of the credits
    start at [format_time(time)].  When [format_time] accepts [time],
    both methods return [time] and log nothing; when it raises, both
    return [None] and log the exception, the old markers being removed
    all the same. *)
Theorem update_markers_in_order
    (self : helper) (item_id time : value)
    (st : Eff.state World) (response : Eff.response) (w : World)
    (info : value) (chapters : list value) :
  answers_all serve ->
  serve (request_for self (get_chapters_url self item_id)) (Eff.world st)
    = (inr response, w) ->
  Eff.json response = inr info ->
  field "chapters" info = Some (PyList chapters) ->
  Forall readable_chapter chapters ->
  exists old_intro old_credits,
    Forall2 has_index (filter (has_marker "Intro") chapters) old_intro
    /\ Forall2 has_index (filter (has_marker "Credits") chapters) old_credits
    /\ match format_time time with
       | inr stamp =>
           fst (update_intro serve self item_id time st) = inr time
           /\ Eff.sent (snd (update_intro serve self item_id time st))
              = (Eff.sent st
                   ++ [request_for self (get_chapters_url self item_id);
                       request_for self (remove_url self item_id old_intro);
                       request_for self
                         (add_url self item_id "%E7%89%87%E5%A4%B4"
                            "intro_start" "00:00:00.000");
                       request_for self
                         (add_url self item_id
                            "%E7%89%87%E5%A4%B4%E7%BB%93%E6%9D%9F"
                            "intro_end" stamp)])%list
           /\ Eff.logged (snd (update_intro serve self item_id time st))
              = Eff.logged st
           /\ fst (update_credits serve self item_id time st) = inr time
           /\ Eff.sent (snd (update_credits serve self item_id time st))
              = (Eff.sent st
                   ++ [request_for self (get_chapters_url self item_id);
                       request_for self (remove_url self item_id old_credits);
                       request_for self
                         (add_url self item_id "%E7%89%87%E5%B0%BE"
                            "credits_start" stamp)])%list
           /\ Eff.logged (snd (update_credits serve self item_id time st))
              = Eff.logged st
       | inl e =>
           fst (update_intro serve self item_id time st) = inr PyNone
           /\ Eff.sent (snd (update_intro serve self item_id time st))
              = (Eff.sent st
                   ++ [request_for self (get_chapters_url self item_id);
                       request_for self (remove_url self item_id old_intro);
                       request_for self
                         (add_url self item_id "%E7%89%87%E5%A4%B4"
                            "intro_start" "00:00:00.000")])%list
           /\ Eff.logged (snd (update_intro serve self item_id time st))
              = (Eff.logged st ++ [Eff.error_exception e])%list
           /\ fst (update_credits serve self item_id time st) = inr PyNone
           /\ Eff.sent (snd (update_credits serve self item_id time st))
              = (Eff.sent st
                   ++ [request_for self (get_chapters_url self item_id);
                       request_for self (remove_url self item_id old_credits)])%list
           /\ Eff.logged (snd (update_credits serve self item_id time st))
              = (Eff.logged st ++ [Eff.error_exception e])%list
       end.
Proof.
  intros Hall Hserve Hjson Hchapters Hread.
  destruct (remove_old_answered self item_id "Intro" st response w info
              chapters Hall Hserve Hjson Hchapters Hread)
    as [old_intro [w1 [Hintro Ei]]].
  destruct (remove_old_answered self item_id "Credits" st response w info
              chapters Hall Hserve Hjson Hchapters Hread)
    as [old_credits [w2 [Hcredits Ec]]].
  exists old_intro, old_credits. split; [exact Hintro|].
  split; [exact Hcredits|].
  destruct (format_time time) as [e|stamp] eqn:Htime.
  - assert (Hi : exists w3,
               update_intro serve self item_id time st
               = (inr PyNone,
                  {| Eff.world := w3;
                     Eff.sent :=
                       (Eff.sent st
                          ++ [request_for self (get_chapters_url self item_id);
                              request_for self (remove_url self item_id old_intro);
                              request_for self
                                (add_url self item_id "%E7%89%87%E5%A4%B4"
                                   "intro_start" "00:00:00.000")])%list;
                     Eff.logged :=
                       (Eff.logged st ++ [Eff.error_exception e])%list |})).
    { unfold update_intro, Eff.try_except, update_intro_body.
      unfold Eff.bind at 1. rewrite Ei. unfold Eff.bind at 1.
      match goal with
      | |- context [get serve self ?u ?s] =>
          destruct (get_answered self u s Hall) as [r1 [w3 E1]]; rewrite E1
      end.
      exists w3. unfold Eff.bind at 1, Eff.lift at 1. rewrite Htime.
      unfold Eff.bind, Eff.log, Eff.ret. cbn. now rewrite <- app_assoc. }
    destruct Hi as [w3 Hi].
    assert (Hc : update_credits serve self item_id time st
                 = (inr PyNone,
                    {| Eff.world := w2;
                       Eff.sent :=
                         (Eff.sent st
                            ++ [request_for self (get_chapters_url self item_id);
                                request_for self
                                  (remove_url self item_id old_credits)])%list;
                       Eff.logged :=
                         (Eff.logged st ++ [Eff.error_exception e])%list |})).
    { unfold update_credits, Eff.try_except, update_credits_body.
      unfold Eff.bind at 1. rewrite Ec.
      unfold Eff.bind at 1, Eff.lift at 1. rewrite Htime.
      unfold Eff.bind, Eff.log, Eff.ret. reflexivity. }
    rewrite Hi, Hc. cbn [fst snd Eff.sent Eff.logged]. now repeat split.
  - assert (Hi : exists w3,
               update_intro serve self item_id time st
               = (inr time,
                  {| Eff.world := w3;
                     Eff.sent :=
                       (Eff.sent st
                          ++ [request_for self (get_chapters_url self item_id);
                              request_for self (remove_url self item_id old_intro);
                              request_for self
                                (add_url self item_id "%E7%89%87%E5%A4%B4"
                                   "intro_start" "00:00:00.000");
                              request_for self
                                (add_url self item_id
                                   "%E7%89%87%E5%A4%B4%E7%BB%93%E6%9D%9F"
                                   "intro_end" stamp)])%list;
                     Eff.logged := Eff.logged st |})).
    { unfold update_intro, Eff.try_except, update_intro_body.
      unfold Eff.bind at 1. rewrite Ei. unfold Eff.bind at 1.
      match goal with
      | |- context [get serve self ?u ?s] =>
          destruct (get_answered self u s Hall) as [r1 [w3 E1]]; rewrite E1
      end.
      unfold Eff.bind at 1, Eff.lift at 1. rewrite Htime. unfold Eff.bind at 1.
      match goal with
      | |- context [get serve self ?u ?s] =>
          destruct (get_answered self u s Hall) as [r2 [w4 E2]]; rewrite E2
      end.
      exists w4. unfold Eff.ret. cbn. now rewrite <- !app_assoc. }
    destruct Hi as [w3 Hi].
    assert (Hc : exists w4,
               update_credits serve self item_id time st
               = (inr time,
                  {| Eff.world := w4;
                     Eff.sent :=
                       (Eff.sent st
                          ++ [request_for self (get_chapters_url self item_id);
                              request_for self
                                (remove_url self item_id old_credits);
                              request_for self
                                (add_url self item_id "%E7%89%87%E5%B0%BE"
                                   "credits_start" stamp)])%list;
                     Eff.logged := Eff.logged st |})).
    { unfold update_credits, Eff.try_except, update_credits_body.
      unfold Eff.bind at 1. rewrite Ec.
      unfold Eff.bind at 1, Eff.lift at 1. rewrite Htime. unfold Eff.bind at 1.
      match goal with
      | |- context [get serve self ?u ?s] =>
          destruct (get_answered self u s Hall) as [r2 [w4 E2]]; rewrite E2
      end.
      exists w4. unfold Eff.ret. cbn. now rewrite <- !app_assoc. }
    destruct Hc as [w4 Hc].
    rewrite Hi, Hc. cbn [fst snd Eff.sent Eff.logged]. now repeat split.
Qed.

End Updates.

(* ================================================================= *)
(** * [format_time] outside the first day *)

Lemma utcfromtimestamp_in_range (n : Z) :
  Datetime.min_second <= n <= Datetime.max_second ->
  Datetime.utcfromtimestamp (Py.PyInt n)
  = inr {| Datetime.since_epoch := n * 1000000 |}.
Proof.
  unfold Datetime.min_second, Datetime.max_second. intros Hn.
  unfold Datetime.utcfromtimestamp, Datetime.timeval, Py.bind, Py.ok.
  unfold Datetime.min_second, Datetime.max_second.
  assert (E1 : (n <? - 2 ^ 63) = false) by (apply Z.ltb_ge; lia).
  assert (E2 : (2 ^ 63 <=? n) = false) by (apply Z.leb_gt; lia).
  assert (E3 : (n <? -62135596800) = false) by (apply Z.ltb_ge; lia).
  assert (E4 : (253402300799 <? n) = false) by (apply Z.ltb_ge; lia).
  rewrite E1, E2, E3, E4. cbn [orb]. now rewrite Z.add_0_r.
Qed.

Lemma utcfromtimestamp_out_of_range (n : Z) :
  n < Datetime.min_second \/ Datetime.max_second < n ->
  exists e, Datetime.utcfromtimestamp (Py.PyInt n) = inl e.
Proof.
  intros Hn.
  unfold Datetime.utcfromtimestamp, Datetime.timeval, Py.bind, Py.ok, Py.raise.
  destruct ((n <? - 2 ^ 63) || (2 ^ 63 <=? n)); [eauto|].
  assert (E : (n <? Datetime.min_second) || (Datetime.max_second <? n) = true).
  { apply orb_true_iff. destruct Hn; [left | right]; now apply Z.ltb_lt. }
  rewrite E. eauto.
Qed.

(** [format_time] is not guarded: it raises [TypeError] for an argument
    that is not a number, and raises for NaN, for an infinity and for a
    whole number of seconds that [datetime] cannot hold (before the year 1
    or after the year 9999). *)
Theorem format_time_raises :
  (forall v, Py.as_number v = None ->
             EmbySkipHelper.format_time v = inl Py.TypeError)
  /\ (forall n, n < -62135596800 \/ 253402300799 < n ->
                exists e, EmbySkipHelper.format_time (Py.PyInt n) = inl e)
  /\ (exists e, EmbySkipHelper.format_time (Py.PyFloat S754_nan) = inl e)
  /\ (forall s, exists e,
        EmbySkipHelper.format_time (Py.PyFloat (S754_infinity s)) = inl e).
Proof.
  repeat split.
  - intros v Hv. destruct v; try discriminate Hv; reflexivity.
  - intros n Hn. destruct (utcfromtimestamp_out_of_range n Hn) as [e He].
    exists e. unfold EmbySkipHelper.format_time. now rewrite He.
  - now eexists.
  - intros s. now eexists.
Qed.

Lemma free_of_of_int (c : ascii) (n : Z) :
  ~ In c ["0"; "1"; "2"; "3"; "4"; "5"; "6"; "7"; "8"; "9"]%char ->
  0 <= n < 10 ^ Z.of_nat 12 ->
  free_of c (PyStr.of_int n) = true.
Proof.
  intros Hc Hn. destruct (digit_count 11 n Hn) as [k [_ [Hlt Hlow]]].
  rewrite (of_int_decimal k) by (auto; lia). now apply free_of_decimal.
Qed.

(** From one day on, [format_time] of a whole number of seconds begins
    with the count of days: [D day, H:MM:SS.000] for one day and
    [D days, H:MM:SS.000] for more, up to the last second of the year
    9999. *)
Theorem format_time_from_a_day_on (n : Z) :
  86400 <= n <= 253402300799 ->
  EmbySkipHelper.format_time (Py.PyInt n)
  = inr (PyStr.of_int (n / 86400)
           ++ " day" ++ (if n / 86400 =? 1 then "" else "s") ++ ", "
           ++ timestamp (n mod 86400 / 3600) (n / 60 mod 60) (n mod 60) 0).
Proof.
  intros Hn. unfold EmbySkipHelper.format_time.
  rewrite utcfromtimestamp_in_range
    by (unfold Datetime.min_second, Datetime.max_second; lia).
  cbn [Py.bind].
  change (Datetime.utcfromtimestamp (Py.PyInt 0))
    with (@inr Py.exn _ {| Datetime.since_epoch := 0 |}).
  cbn [Py.bind]. unfold Datetime.sub, Datetime.str, Datetime.day_us.
  cbn [Datetime.since_epoch Datetime.days Datetime.seconds Datetime.microseconds].
  rewrite Z.sub_0_r.
  assert (Hd : n * 1000000 / (86400 * 1000000) = n / 86400)
    by (Z.div_mod_to_equations; lia).
  assert (Hs : n * 1000000 mod (86400 * 1000000) / 1000000 = n mod 86400)
    by (Z.div_mod_to_equations; lia).
  assert (Hu : n * 1000000 mod (86400 * 1000000) mod 1000000 = 0)
    by (Z.div_mod_to_equations; lia).
  rewrite Hd, Hs, Hu.
  assert (Hdays : 1 <= n / 86400 < 10 ^ Z.of_nat 12).
  { change (10 ^ Z.of_nat 12) with 1000000000000.
    Z.div_mod_to_equations; lia. }
  assert (E0 : (n / 86400 =? 0) = false) by (apply Z.eqb_neq; lia).
  rewrite E0. change (0 =? 0) with true. cbv iota.
  rewrite (Z.abs_eq (n / 86400)) by lia.
  assert (Hh : n mod 86400 / 60 / 60 = n mod 86400 / 3600)
    by (Z.div_mod_to_equations; lia).
  assert (Hm : n mod 86400 / 60 mod 60 = n / 60 mod 60)
    by (Z.div_mod_to_equations; lia).
  assert (Hsec : n mod 86400 mod 60 = n mod 60)
    by (Z.div_mod_to_equations; lia).
  rewrite Hh, Hm, Hsec.
  rewrite (of_int_hours (n mod 86400 / 3600))
    by (Z.div_mod_to_equations; lia).
  rewrite !(of_int_width_decimal 1)
    by (change (10 ^ Z.of_nat 2) with 100; Z.div_mod_to_equations; lia).
  change (PyStr.take 3 (PyStr.zfill 6 (PyStr.of_int 0))) with (decimal 3 0).
  set (whole := PyStr.of_int (n / 86400)
                  ++ " day" ++ (if n / 86400 =? 1 then "" else "s") ++ ", "
                  ++ hours (n mod 86400 / 3600) ++ ":"
                  ++ decimal 2 (n / 60 mod 60) ++ ":" ++ decimal 2 (n mod 60)).
  assert (Hfree : free_of "." whole = true).
  { unfold whole. rewrite !free_of_append.
    rewrite free_of_of_int, free_of_hours, !free_of_decimal
      by (try apply not_a_digit; try reflexivity; lia).
    now destruct (n / 86400 =? 1). }
  rewrite split_free by assumption. rewrite item_first. cbn [Py.bind].
  unfold Py.ok, timestamp, whole. f_equal. now rewrite !append_assoc.
Qed.

(* ================================================================= *)
(** * Keywords with an empty piece *)

(** A final comma leaves an empty last piece. *)
Lemma split_final_separator (sep : ascii) (prefix : string) :
  exists first rest,
    PyStr.split sep (prefix ++ String sep EmptyString)
    = (first :: rest ++ [EmptyString])%list.
Proof.
  induction prefix as [|c prefix [first [rest IH]]].
  - exists EmptyString, []. cbn. now rewrite Ascii.eqb_refl.
  - cbn [append PyStr.split]. rewrite IH. destruct (Ascii.eqb c sep).
    + now exists EmptyString, (first :: rest).
    + now exists (String c first), rest.
Qed.

(** A doubled comma leaves an empty piece after the first one. *)
Lemma split_doubled_separator (sep : ascii) (prefix suffix : string) :
  exists first rest,
    PyStr.split sep (prefix ++ String sep (String sep suffix)) = first :: rest
    /\ In EmptyString rest.
Proof.
  induction prefix as [|c prefix [first [rest [IH Hin]]]].
  - exists EmptyString, (EmptyString :: PyStr.split sep suffix).
    cbn [append PyStr.split]. rewrite Ascii.eqb_refl. split; [reflexivity|now left].
  - cbn [append PyStr.split]. rewrite IH. destruct (Ascii.eqb c sep).
    + exists EmptyString, (first :: rest). split; [reflexivity | now right].
    + now exists (String c first), rest.
Qed.

(** When splitting [keywords] leaves an empty piece, as a final, a first
    or a doubled comma does, the empty keyword occurs in every path:
    [include_keyword] accepts every path and, [keywords] not being empty,
    [exclude_keyword] rejects every path. *)
Theorem empty_keyword_matches_every_path :
  (forall path keywords,
      In EmptyString (PyStr.split "," keywords) ->
      ret (include_keyword path keywords) = true
      /\ (keywords <> EmptyString ->
          ret (exclude_keyword path keywords) = false))
  /\ (forall prefix, In EmptyString (PyStr.split "," (prefix ++ ",")))
  /\ (forall suffix, In EmptyString (PyStr.split "," ("," ++ suffix)))
  /\ (forall prefix suffix,
        In EmptyString (PyStr.split "," (prefix ++ ",," ++ suffix))).
Proof.
  split; [|split; [|split]].
  - intros path keywords Hin.
    assert (Hfind : find (PyStr.contains path) (PyStr.split "," keywords)
                    <> None).
    { intros Hnone. apply (proj1 (find_none_iff path _) Hnone EmptyString Hin).
      now exists EmptyString, path. }
    split.
    + unfold include_keyword. rewrite include_loop_find.
      now destruct (find (PyStr.contains path) (PyStr.split "," keywords)).
    + intros Hne. rewrite exclude_keyword_find.
      destruct keywords as [|c s]; [contradiction|]. unfold exclude_list.
      now destruct (find (PyStr.contains path) (PyStr.split "," (String c s))).
  - intros prefix. destruct (split_final_separator "," prefix) as [f [r E]].
    change (prefix ++ ",") with (prefix ++ String "," EmptyString).
    rewrite E. right. apply in_or_app. right. now left.
  - intros suffix. change ("," ++ suffix) with (String "," suffix).
    cbn [PyStr.split]. rewrite Ascii.eqb_refl. now left.
  - intros prefix suffix.
    destruct (split_doubled_separator "," prefix suffix) as [f [r [E Hin]]].
    change (prefix ++ ",," ++ suffix)
      with (prefix ++ String "," (String "," suffix)).
    rewrite E. now right.
Qed.

(* ================================================================= *)
(** * What the lookups return *)

Lemma truediv_float (a b q : Py.value) :
  Py.truediv a b = inr q -> exists f, q = Py.PyFloat f.
Proof.
  unfold Py.truediv, Py.number_truediv, Py.bind, Py.ok, Py.raise.
  destruct (Py.as_number a) as [x|], (Py.as_number b) as [y|];
    try discriminate.
  destruct (Py.is_zero y); [discriminate|].
  destruct x as [m|f], y as [n|g].
  - destruct (SFdiv Py.prec Py.emax (Py.exact_float m) (Py.exact_float n));
      intros [= <-]; eauto.
  - destruct (Py.float_of_int m); intros [= <-]; eauto.
  - destruct (Py.float_of_int n); intros [= <-]; eauto.
  - intros [= <-]; eauto.
Qed.

(** [==] with an integer on one side does not depend on the side. *)
Lemma eqb_int_sym (v : Py.value) (n : Z) :
  Py.eqb v (Py.PyInt n) = Py.eqb (Py.PyInt n) v.
Proof.
  destruct v; try reflexivity; cbn; unfold Py.number_eqb; cbn.
  - now rewrite Z.compare_antisym; destruct (n ?= (if b then 1 else 0)).
  - now rewrite Z.compare_antisym; destruct (n ?= n0).
  - now destruct (Py.compare_int_float n f) as [[]|].
Qed.

(** What is equal to an integer is greater than or equal to it. *)
Lemma eqb_int_geb (v : Py.value) (n : Z) :
  Py.eqb v (Py.PyInt n) = true -> Py.geb v (Py.PyInt n) = inr true.
Proof.
  destruct v; try discriminate; cbn; unfold Py.number_eqb, Py.number_geb, Py.ok;
    cbn.
  - now destruct ((if b then 1 else 0) ?= n).
  - now destruct (n0 ?= n).
  - now destruct (option_map CompOpp (Py.compare_int_float n f)) as [[]|].
Qed.

(** For integer arguments, the episode [get_current_video_item_id]
    selects is one [get_next_episode_ids] selects. *)
Lemma is_current_follows (season episode_number : Z) (episode : Py.value) :
  is_current (Py.PyInt season) (Py.PyInt episode_number) episode = true ->
  follows (Py.PyInt season) (Py.PyInt episode_number) episode = true.
Proof.
  unfold is_current, follows.
  destruct (field "IndexNumber" episode) as [index|]; [|discriminate].
  destruct (field "ParentIndexNumber" episode) as [parent|]; [|discriminate].
  intros H. apply andb_true_iff in H as [Hi Hp].
  rewrite (eqb_int_geb _ _ Hi). now rewrite <- eqb_int_sym.
Qed.

Lemma Forall2_In_left {A B : Type} (P : A -> B -> Prop)
    (l : list A) (l' : list B) (x : A) :
  Forall2 P l l' -> In x l -> exists y, In y l' /\ P x y.
Proof.
  induction 1 as [|a b l l' Hab _ IH]; intros Hin; [contradiction|].
  destruct Hin as [<-|Hin].
  - exists b. split; [now left | assumption].
  - destruct (IH Hin) as [y [Hy Hxy]]. exists y. split; [now right | assumption].
Qed.

Section Lookups.
Import Py EmbySkipHelper.
Context {R : Repr} {World : Type}.
Variable serve : Eff.request -> World -> result Eff.response * World.

(** [get_total_time] returns a number in every run: the integer [0] or
    a float.  It never returns [None], and [0] stands both for a failure
    and for a response without media sources. *)
Theorem get_total_time_is_a_number (self : helper) (item_id : value)
    (st : Eff.state World) :
  exists v,
    fst (get_total_time serve self item_id st) = inr v
    /\ (v = PyInt 0 \/ exists f, v = PyFloat f).
Proof.
  unfold get_total_time, Eff.try_except.
  destruct (get_total_time_body serve self item_id st) as [[e|v] st1] eqn:Hbody.
  - exists (PyInt 0). split; [reflexivity | now left].
  - exists v. split; [reflexivity|].
    unfold get_total_time_body, Eff.bind, Eff.requests_get, Eff.lift, Eff.ret,
      Eff.log in Hbody.
    destruct (serve (playback_info_request self item_id) (Eff.world st))
      as [[?|response] w]; [discriminate|].
    destruct (Eff.json response) as [?|video_info]; [discriminate|].
    destruct (getitem video_info (PyStr "MediaSources")) as [?|sources];
      [discriminate|].
    destruct (truthy sources).
    + destruct (getitem sources (PyInt 0)) as [?|source]; [discriminate|].
      destruct (getitem source (PyStr "RunTimeTicks")) as [?|ticks];
        [discriminate|].
      destruct (truediv ticks (PyInt 10000000)) as [?|q] eqn:Hq;
        [discriminate|].
      injection Hbody as <- _. right. exact (truediv_float _ _ _ Hq).
    + injection Hbody as <- _. now left.
Qed.

(** For an integer season and episode, on a response whose ['Items'] is
    a list: an id that [get_current_video_item_id] returns, other than
    [-1], is in the list that [get_next_episode_ids] returns when its body
    does not raise.  The "next" episodes begin with the current one. *)
Theorem current_episode_is_among_the_next
    (self : helper) (item_id : value) (season episode_number : Z)
    (st : Eff.state World) (response : Eff.response) (w : World)
    (info : value) (episodes : list value) (v : value) (ids : list value) :
  serve (request_for self (episodes_url self item_id)) (Eff.world st)
    = (inr response, w) ->
  Eff.json response = inr info ->
  field "Items" info = Some (PyList episodes) ->
  fst (get_current_video_item_id serve self item_id
         (PyInt season) (PyInt episode_number) st) = inr v ->
  v <> PyInt (-1) ->
  fst (get_next_episode_ids_body serve self item_id
         (PyInt season) (PyInt episode_number) st) = inr (PyList ids) ->
  In v ids.
Proof.
  intros Hserve Hjson Hitems Hcurrent Hfound Hnext.
  apply getitem_field in Hitems.
  (* the current episode *)
  unfold get_current_video_item_id, Eff.try_except in Hcurrent.
  destruct (get_current_video_item_id_body serve self item_id (PyInt season)
              (PyInt episode_number) st) as [[e|v'] st1] eqn:Hbody;
    unfold Eff.bind, Eff.log, Eff.ret in Hcurrent; cbn [fst] in Hcurrent;
    injection Hcurrent as Hv; [now symmetry in Hv | subst v'].
  unfold get_current_video_item_id_body, get, Eff.bind, Eff.requests_get
    in Hbody.
  rewrite Hserve in Hbody. unfold Eff.lift in Hbody.
  rewrite Hjson, Hitems in Hbody. unfold iterate, ok in Hbody.
  apply current_episode_loop_returns in Hbody
    as [(before & episode & after & -> & _ & Hsel & Hid) | [_ ->]];
    [|contradiction].
  (* the next episodes *)
  unfold get_next_episode_ids_body, get, Eff.bind, Eff.requests_get in Hnext.
  rewrite Hserve in Hnext. unfold Eff.lift in Hnext.
  rewrite Hjson, Hitems in Hnext. unfold iterate, ok, Eff.ret in Hnext.
  match type of Hnext with
  | context [next_episode_loop ?s ?e ?l ?i ?a ?t] =>
      destruct (next_episode_loop s e l i a t) as [[?|out] st2] eqn:Hloop
  end; [discriminate|].
  cbn in Hnext. injection Hnext as ->.
  apply next_episode_loop_returns in Hloop as [new [-> Hnew]].
  destruct (Forall2_In_left _ _ _ episode Hnew) as [id [Hin Hid']].
  - apply filter_In. split; [|now apply is_current_follows].
    apply in_or_app. right. now left.
  - unfold has_id in Hid, Hid'. rewrite Hid in Hid'. now injection Hid' as <-.
Qed.

Lemma getitem_no_field (v : value) (key : string) :
  field key v = None -> exists e, getitem v (PyStr key) = inl e.
Proof.
  intros H. destruct (getitem v (PyStr key)) as [e|x] eqn:E; [eauto|].
  apply getitem_field in E. congruence.
Qed.

(** The loop of [get_next_episode_ids] raises when an episode has no
    ['IndexNumber'], wherever it is in the list. *)
Lemma next_episode_loop_raises (season_id episode_id : value)
    (episodes : list value) (bad : value) :
  In bad episodes -> field "IndexNumber" bad = None ->
  forall idx ids st,
    exists e,
      fst (next_episode_loop (World := World) season_id episode_id episodes
             idx ids st) = inl e.
Proof.
  intros Hin Hbad.
  induction episodes as [|episode rest IH]; [contradiction|].
  intros idx ids st. cbn [next_episode_loop].
  unfold Eff.bind, Eff.lift, Eff.ret, Eff.log.
  destruct Hin as [->|Hin].
  - destruct (getitem_no_field bad "IndexNumber" Hbad) as [e He].
    rewrite He. now exists e.
  - specialize (IH Hin).
    destruct (getitem episode (PyStr "IndexNumber")) as [e|index]; [now exists e|].
    destruct (geb index episode_id) as [e|[|]]; [now exists e| |apply IH].
    destruct (getitem episode (PyStr "ParentIndexNumber")) as [e|parent];
      [now exists e|].
    destruct (eqb season_id parent); [|apply IH].
    destruct (getitem episode (PyStr "Id")) as [e|id]; [now exists e|].
    destruct (add episode_id (PyInt idx)) as [e|number]; [now exists e|].
    apply IH.
Qed.

(** One episode without ['IndexNumber'] anywhere in the response makes
    [get_next_episode_ids] return the empty list, whatever the other
    episodes are. *)
Theorem next_episodes_all_or_nothing
    (self : helper) (item_id season_id episode_id : value)
    (st : Eff.state World) (response : Eff.response) (w : World)
    (info : value) (episodes : list value) (bad : value) :
  serve (request_for self (episodes_url self item_id)) (Eff.world st)
    = (inr response, w) ->
  Eff.json response = inr info ->
  field "Items" info = Some (PyList episodes) ->
  In bad episodes ->
  field "IndexNumber" bad = None ->
  fst (get_next_episode_ids serve self item_id season_id episode_id st)
  = inr (PyList []).
Proof.
  intros Hserve Hjson Hitems Hin Hbad. apply getitem_field in Hitems.
  unfold get_next_episode_ids, Eff.try_except, get_next_episode_ids_body.
  unfold get, Eff.bind at 1, Eff.requests_get. rewrite Hserve.
  unfold Eff.bind at 1, Eff.lift at 1. rewrite Hjson.
  unfold Eff.bind at 1, Eff.lift at 1. rewrite Hitems.
  unfold Eff.bind at 1, Eff.lift at 1, iterate, ok. unfold Eff.bind at 1.
  match goal with
  | |- context [next_episode_loop ?s ?e ?l ?i ?a ?t] =>
      destruct (next_episode_loop_raises s e l bad Hin Hbad i a t) as [x Hx];
      destruct (next_episode_loop s e l i a t) as [[?|out] st2]
  end; [reflexivity | discriminate Hx].
Qed.

(** On episodes as the server lists them, and for integer arguments, the
    loop of [get_next_episode_ids] does not raise. *)
Lemma next_episode_loop_plain (season episode_number : Z)
    (episodes : list value) :
  Forall plain_episode episodes ->
  forall idx ids st,
    exists out st',
      next_episode_loop (World := World) (PyInt season) (PyInt episode_number)
        episodes idx ids st = (inr out, st').
Proof.
  induction 1 as [|episode rest (index & parent & id & Hi & Hp & Hid) _ IH];
    intros idx ids st; [now eexists; eexists|].
  apply getitem_field in Hi, Hp, Hid. cbn [next_episode_loop].
  unfold Eff.bind, Eff.lift, Eff.ret, Eff.log. rewrite Hi. cbn [geb as_number].
  unfold ok. destruct (number_geb (NInt index) (NInt episode_number));
    [|apply IH].
  rewrite Hp. destruct (eqb (PyInt season) (PyInt parent)); [|apply IH].
  rewrite Hid. cbn [add as_number number_add]. unfold ok. apply IH.
Qed.

(** For a response whose episodes are all as the server lists them, and
    integer arguments, [get_next_episode_ids] does not fail: no exception
    is caught, and it returns exactly the ids of the selected episodes. *)
Theorem get_next_episode_ids_of_a_plain_listing
    (self : helper) (item_id : value) (season episode_number : Z)
    (st : Eff.state World) (response : Eff.response) (w : World)
    (info : value) (episodes : list value) :
  serve (request_for self (episodes_url self item_id)) (Eff.world st)
    = (inr response, w) ->
  Eff.json response = inr info ->
  field "Items" info = Some (PyList episodes) ->
  Forall plain_episode episodes ->
  exists ids,
    fst (get_next_episode_ids_body serve self item_id
           (PyInt season) (PyInt episode_number) st) = inr (PyList ids)
    /\ fst (get_next_episode_ids serve self item_id
              (PyInt season) (PyInt episode_number) st) = inr (PyList ids)
    /\ Forall2 has_id
         (filter (follows (PyInt season) (PyInt episode_number)) episodes) ids.
Proof.
  intros Hserve Hjson Hitems Hplain. apply getitem_field in Hitems.
  assert (Hbody : exists ids st',
             get_next_episode_ids_body serve self item_id
               (PyInt season) (PyInt episode_number) st = (inr (PyList ids), st')
             /\ Forall2 has_id
                  (filter (follows (PyInt season) (PyInt episode_number))
                     episodes) ids).
  { unfold get_next_episode_ids_body.
    unfold get, Eff.bind at 1, Eff.requests_get. rewrite Hserve.
    unfold Eff.bind at 1, Eff.lift at 1. rewrite Hjson.
    unfold Eff.bind at 1, Eff.lift at 1. rewrite Hitems.
    unfold Eff.bind at 1, Eff.lift at 1, iterate, ok. unfold Eff.bind at 1.
    match goal with
    | |- context [next_episode_loop ?s ?e ?l ?i ?a ?t] =>
        destruct (next_episode_loop_plain season episode_number l Hplain i a t)
          as [out [st' Hloop]]; rewrite Hloop
    end.
    apply next_episode_loop_returns in Hloop as [new [-> Hnew]].
    exists new, st'. now split. }
  destruct Hbody as [ids [st' [Hbody Hids]]]. exists ids.
  unfold get_next_episode_ids, Eff.try_except. now rewrite Hbody.
Qed.

(** The loop of [get_current_video_item_id] reaches the first selected
    episode when it can read the episodes before it. *)
Lemma current_episode_loop_finds (season_id episode_id : value)
    (before : list value) (episode : value) (after : list value) (v : value) :
  Forall (passed_over season_id episode_id) before ->
  is_current season_id episode_id episode = true ->
  has_id episode v ->
  forall st,
    fst (current_episode_loop (World := World) season_id episode_id
           (before ++ episode :: after)%list st) = inr v.
Proof.
  intros Hbefore Hsel Hid st.
  induction Hbefore as [|x before (index & Hi & Hskip) _ IH];
    cbn [app current_episode_loop]; unfold Eff.bind, Eff.lift, Eff.ret, Eff.log.
  - unfold is_current in Hsel.
    destruct (field "IndexNumber" episode) as [index|] eqn:Hi; [|discriminate].
    destruct (field "ParentIndexNumber" episode) as [parent|] eqn:Hp;
      [|discriminate].
    apply andb_true_iff in Hsel as [He Hs].
    apply getitem_field in Hi, Hp, Hid. now rewrite Hi, He, Hp, Hs, Hid.
  - apply getitem_field in Hi. rewrite Hi.
    destruct Hskip as [He | (parent & Hp & Hs)].
    + rewrite He. exact IH.
    + apply getitem_field in Hp.
      destruct (eqb index episode_id); [rewrite Hp, Hs|]; exact IH.
Qed.

(** When the episodes before the first selected one can be read,
    [get_current_video_item_id] returns the id of that episode, whatever
    comes after it in the response. *)
Theorem get_current_video_item_id_finds
    (self : helper) (item_id season_id episode_id : value)
    (st : Eff.state World) (response : Eff.response) (w : World)
    (info : value) (before : list value) (episode : value)
    (after : list value) (v : value) :
  serve (request_for self (episodes_url self item_id)) (Eff.world st)
    = (inr response, w) ->
  Eff.json response = inr info ->
  field "Items" info = Some (PyList (before ++ episode :: after)) ->
  Forall (passed_over season_id episode_id) before ->
  is_current season_id episode_id episode = true ->
  has_id episode v ->
  fst (get_current_video_item_id serve self item_id season_id episode_id st)
  = inr v.
Proof.
  intros Hserve Hjson Hitems Hbefore Hsel Hid. apply getitem_field in Hitems.
  unfold get_current_video_item_id, Eff.try_except,
    get_current_video_item_id_body.
  unfold get, Eff.bind at 1, Eff.requests_get. rewrite Hserve.
  unfold Eff.bind at 1, Eff.lift at 1. rewrite Hjson.
  unfold Eff.bind at 1, Eff.lift at 1. rewrite Hitems.
  unfold Eff.bind at 1, Eff.lift at 1, iterate, ok.
  match goal with
  | |- context [current_episode_loop ?s ?e ?l ?t] =>
      pose proof (current_episode_loop_finds s e before episode after v
                    Hbefore Hsel Hid t) as Hloop;
      destruct (current_episode_loop s e l t) as [[?|v'] st2]
  end; cbn [fst] in *; [discriminate Hloop | exact Hloop].
Qed.

End Lookups.

(* ================================================================= *)
(** * Further worked examples *)

Lemma set_emby_server_token_witness :
  Eff.headers
    (EmbySkipHelper.playback_info_request (R := Script.plain)
       (fst (EmbySkipHelper.set_emby_server Script.config Script.blank
               None None))
       (Py.PyInt 1847))
  = [("X-Emby-Token", "secret")]
  /\ Eff.params
       (EmbySkipHelper.playback_info_request (R := Script.plain)
          (fst (EmbySkipHelper.set_emby_server Script.config Script.blank
                  None None))
          (Py.PyInt 1847))
     = [("api_key", "secret")].
Proof.
  apply (set_emby_server_token (R := Script.plain) Script.config Script.blank
           None None "emby.local:8096" (Py.PyInt 1847) eq_refl).
Defined.

Lemma set_emby_server_again_witness :
  fst (EmbySkipHelper.set_emby_server Script.config Script.blank None None)
  = {| EmbySkipHelper.base_url := Some "http://emby.local:8096/";
       EmbySkipHelper.api_key := Some "secret";
       EmbySkipHelper.headers := [("X-Emby-Token", "secret")] |}
  /\ EmbySkipHelper.set_emby_server Script.config
       (fst (EmbySkipHelper.set_emby_server Script.config Script.blank
               None None))
       (Some "http://emby.local:8096/") (Some "secret")
     = (fst (EmbySkipHelper.set_emby_server Script.config Script.blank
               None None), []).
Proof.
  split; [reflexivity|].
  apply (set_emby_server_again Script.config Script.blank None None
           "emby.local:8096" eq_refl).
Defined.

Lemma chapters_readable : Forall readable_chapter Script.chapters.
Proof. repeat constructor; eexists; eexists; split; reflexivity. Qed.

Lemma always_answers (v : Py.value) : answers_all (Script.always v).
Proof. intros r w. now eexists. Qed.

Lemma update_stops_at_bad_time_witness :
  fst (EmbySkipHelper.update_credits (R := Script.plain)
         (Script.always Script.chapter_info) Script.emby (Py.PyStr "77")
         Py.PyNone Script.fresh)
  = inr Py.PyNone
  /\ map Eff.url
       (Eff.sent
          (snd (EmbySkipHelper.update_credits (R := Script.plain)
                  (Script.always Script.chapter_info) Script.emby
                  (Py.PyStr "77") Py.PyNone Script.fresh)))
     = ["http://emby:8096/emby/chapter_api/get_chapters?id=77";
        "http://emby:8096/emby/chapter_api/update_chapters?id=77&index_list=3&action=remove"].
Proof.
  destruct (update_stops_at_bad_time (R := Script.plain)
              (Script.always Script.chapter_info) Script.emby (Py.PyStr "77")
              Py.PyNone Script.fresh {| Eff.json := inr Script.chapter_info |}
              tt Script.chapter_info Script.chapters Py.TypeError
              (always_answers _) eq_refl eq_refl eq_refl chapters_readable
              eq_refl)
    as [old_intro [old_credits [_ [_ [_ [_ [Hnone _]]]]]]].
  split; [exact Hnone | reflexivity].
Defined.

Lemma update_succeeds_witness :
  fst (EmbySkipHelper.update_credits (R := Script.plain)
         (Script.always Script.chapter_info) Script.emby (Py.PyStr "77")
         (Py.PyInt 1295) Script.fresh)
  = inr (Py.PyInt 1295)
  /\ map Eff.url
       (Eff.sent
          (snd (EmbySkipHelper.update_credits (R := Script.plain)
                  (Script.always Script.chapter_info) Script.emby
                  (Py.PyStr "77") (Py.PyInt 1295) Script.fresh)))
     = ["http://emby:8096/emby/chapter_api/get_chapters?id=77";
        "http://emby:8096/emby/chapter_api/update_chapters?id=77&index_list=3&action=remove";
        "http://emby:8096/emby/chapter_api/update_chapters?id=77&action=add&name=%E7%89%87%E5%B0%BE&type=credits_start&time=0:21:35.000"].
Proof.
  destruct (update_succeeds (R := Script.plain)
              (Script.always Script.chapter_info) Script.emby (Py.PyStr "77")
              (Py.PyInt 1295) Script.fresh
              {| Eff.json := inr Script.chapter_info |}
              tt Script.chapter_info Script.chapters "0:21:35.000"
              (always_answers _) eq_refl eq_refl eq_refl chapters_readable
              eq_refl)
    as [old_intro [old_credits [_ [_ [_ [_ [_ [Hret _]]]]]]]].
  split; [exact Hret | reflexivity].
Defined.

(** Both methods on the same item at 95 seconds: the old intro markers
    [0] and [2] (the old credits marker [3]) are removed, then the new
    markers are added. *)
Lemma update_markers_in_order_witness :
  (fst (EmbySkipHelper.update_intro (R := Script.plain)
          (Script.always Script.chapter_info) Script.emby (Py.PyStr "77")
          (Py.PyInt 95) Script.fresh)
   = inr (Py.PyInt 95)
   /\ map Eff.url
        (Eff.sent
           (snd (EmbySkipHelper.update_intro (R := Script.plain)
                   (Script.always Script.chapter_info) Script.emby
                   (Py.PyStr "77") (Py.PyInt 95) Script.fresh)))
      = ["http://emby:8096/emby/chapter_api/get_chapters?id=77";
         "http://emby:8096/emby/chapter_api/update_chapters?id=77&index_list=0,2&action=remove";
         "http://emby:8096/emby/chapter_api/update_chapters?id=77&action=add&name=%E7%89%87%E5%A4%B4&type=intro_start&time=00:00:00.000";
         "http://emby:8096/emby/chapter_api/update_chapters?id=77&action=add&name=%E7%89%87%E5%A4%B4%E7%BB%93%E6%9D%9F&type=intro_end&time=0:01:35.000"])
  /\ (fst (EmbySkipHelper.update_credits (R := Script.plain)
             (Script.always Script.chapter_info) Script.emby (Py.PyStr "77")
             (Py.PyInt 95) Script.fresh)
      = inr (Py.PyInt 95)
      /\ map Eff.url
           (Eff.sent
              (snd (EmbySkipHelper.update_credits (R := Script.plain)
                      (Script.always Script.chapter_info) Script.emby
                      (Py.PyStr "77") (Py.PyInt 95) Script.fresh)))
         = ["http://emby:8096/emby/chapter_api/get_chapters?id=77";
            "http://emby:8096/emby/chapter_api/update_chapters?id=77&index_list=3&action=remove";
            "http://emby:8096/emby/chapter_api/update_chapters?id=77&action=add&name=%E7%89%87%E5%B0%BE&type=credits_start&time=0:01:35.000"]).
Proof.
  destruct (update_markers_in_order (R := Script.plain)
              (Script.always Script.chapter_info) Script.emby (Py.PyStr "77")
              (Py.PyInt 95) Script.fresh
              {| Eff.json := inr Script.chapter_info |}
              tt Script.chapter_info Script.chapters
              (always_answers _) eq_refl eq_refl eq_refl chapters_readable)
    as [old_intro [old_credits [_ [_ H]]]].
  change (EmbySkipHelper.format_time (Py.PyInt 95))
    with (@inr Py.exn string "0:01:35.000") in H.
  destruct H as [Hintro [_ [_ [Hcredits _]]]].
  split; (split; [assumption | reflexivity]).
Defined.

(** With no time to format, [update_credits] removes the old credits
    marker and adds none; and [update_intro] at [0] seconds writes the
    same instant in two ways, [00:00:00.000] for the intro start and
    [format_time(0)], which is [0:00:00.000], for the intro end. *)
Lemma update_credits_adds_nothing :
  fst (EmbySkipHelper.update_credits (R := Script.plain)
         (Script.always Script.chapter_info) Script.emby (Py.PyStr "77")
         Py.PyNone Script.fresh)
  = inr Py.PyNone
  /\ map Eff.url
       (Eff.sent
          (snd (EmbySkipHelper.update_credits (R := Script.plain)
                  (Script.always Script.chapter_info) Script.emby
                  (Py.PyStr "77") Py.PyNone Script.fresh)))
     = ["http://emby:8096/emby/chapter_api/get_chapters?id=77";
        "http://emby:8096/emby/chapter_api/update_chapters?id=77&index_list=3&action=remove"]
  /\ map Eff.url
       (Eff.sent
          (snd (EmbySkipHelper.update_intro (R := Script.plain)
                  (Script.always Script.chapter_info) Script.emby
                  (Py.PyStr "77") (Py.PyInt 0) Script.fresh)))
     = ["http://emby:8096/emby/chapter_api/get_chapters?id=77";
        "http://emby:8096/emby/chapter_api/update_chapters?id=77&index_list=0,2&action=remove";
        "http://emby:8096/emby/chapter_api/update_chapters?id=77&action=add&name=%E7%89%87%E5%A4%B4&type=intro_start&time=00:00:00.000";
        "http://emby:8096/emby/chapter_api/update_chapters?id=77&action=add&name=%E7%89%87%E5%A4%B4%E7%BB%93%E6%9D%9F&type=intro_end&time=0:00:00.000"]
  /\ EmbySkipHelper.format_time (Py.PyInt 0) = inr "0:00:00.000".
Proof. repeat split; vm_compute; reflexivity. Qed.

Lemma format_time_from_a_day_on_witness :
  EmbySkipHelper.format_time (Py.PyInt 90061) = inr "1 day, 1:01:01.000"
  /\ EmbySkipHelper.format_time (Py.PyInt 253402300799)
     = inr "2932896 days, 23:59:59.000".
Proof.
  split.
  - apply (format_time_from_a_day_on 90061); lia.
  - apply (format_time_from_a_day_on 253402300799); lia.
Defined.

Lemma current_episode_is_among_the_next_witness :
  In (Py.PyStr "102") [Py.PyStr "102"; Py.PyStr "103"].
Proof.
  apply (current_episode_is_among_the_next (R := Script.plain) Script.serve
           Script.emby (Py.PyInt 5842) 1 2
           (Script.start [Script.answer Script.listing])
           {| Eff.json := inr Script.listing |} [] Script.listing
           Script.episodes (Py.PyStr "102")
           [Py.PyStr "102"; Py.PyStr "103"]);
    try reflexivity. discriminate.
Defined.

Lemma next_episodes_all_or_nothing_witness :
  fst (EmbySkipHelper.get_next_episode_ids (R := Script.plain) Script.serve
         Script.emby (Py.PyInt 5842) (Py.PyInt 1) (Py.PyInt 2)
         (Script.start [Script.answer Script.listing_with_special]))
  = inr (Py.PyList []).
Proof.
  apply (next_episodes_all_or_nothing (R := Script.plain) Script.serve
           Script.emby (Py.PyInt 5842) (Py.PyInt 1) (Py.PyInt 2)
           (Script.start [Script.answer Script.listing_with_special])
           {| Eff.json := inr Script.listing_with_special |} []
           Script.listing_with_special
           (Script.episodes ++ [Script.special])%list Script.special);
    try reflexivity.
  apply in_or_app. right. now left.
Defined.

Lemma episodes_plain : Forall plain_episode Script.episodes.
Proof.
  repeat constructor; eexists; eexists; eexists; repeat split; reflexivity.
Qed.

Lemma get_next_episode_ids_of_a_plain_listing_witness :
  exists ids,
    fst (EmbySkipHelper.get_next_episode_ids_body (R := Script.plain)
           Script.serve Script.emby (Py.PyInt 5842) (Py.PyInt 2) (Py.PyInt 1)
           (Script.start [Script.answer Script.listing]))
    = inr (Py.PyList ids)
    /\ fst (EmbySkipHelper.get_next_episode_ids (R := Script.plain)
              Script.serve Script.emby (Py.PyInt 5842) (Py.PyInt 2)
              (Py.PyInt 1) (Script.start [Script.answer Script.listing]))
       = inr (Py.PyList ids)
    /\ Forall2 has_id
         (filter (follows (Py.PyInt 2) (Py.PyInt 1)) Script.episodes) ids.
Proof.
  apply (get_next_episode_ids_of_a_plain_listing (R := Script.plain)
           Script.serve Script.emby (Py.PyInt 5842) 2 1
           (Script.start [Script.answer Script.listing])
           {| Eff.json := inr Script.listing |} [] Script.listing
           Script.episodes eq_refl eq_refl eq_refl episodes_plain).
Defined.

Lemma get_current_video_item_id_finds_witness :
  fst (EmbySkipHelper.get_current_video_item_id (R := Script.plain)
         Script.serve Script.emby (Py.PyInt 5842) (Py.PyInt 1) (Py.PyInt 3)
         (Script.start [Script.answer Script.listing_with_special]))
  = inr (Py.PyStr "103").
Proof.
  apply (get_current_video_item_id_finds (R := Script.plain) Script.serve
           Script.emby (Py.PyInt 5842) (Py.PyInt 1) (Py.PyInt 3)
           (Script.start [Script.answer Script.listing_with_special])
           {| Eff.json := inr Script.listing_with_special |} []
           Script.listing_with_special
           [Script.episode 1 1 "101"; Script.episode 2 1 "102"]
           (Script.episode 3 1 "103")
           [Script.episode 1 2 "201"; Script.episode 2 2 "202"; Script.special]
           (Py.PyStr "103"));
    try reflexivity.
  repeat constructor; eexists; (split; [reflexivity | now left]).
Defined.
